(** * Restaurant concierge: query understanding, matching and dietary
      compatibility

    A shallow embedding of the decision logic of the repository:

    - [DietaryRestrictionsHandler] (src/utils/dietary-restrictions.ts),
    - [RestaurantDataGenerator]    (src/generators/restaurant-generator.ts),
    - [EnhancedConciergeAgent]     (src/agents/enhanced-concierge.ts),
    - [BasicConciergeAgent]        (src/unnamed/part_000, the agent before
                                    scores and dietary/amenity filters).

    Modelling conventions.

    - A JavaScript string is a [string] of 8-bit characters; [toLowerCase]
      maps the letters A-Z to a-z and leaves every other character alone.
    - Scores and price levels are integers ([Z]); a restaurant rating and the
      location price multiplier are rationals ([Q]) standing for the decimal
      literal or the finite number the code holds.  The truthiness test of
      JavaScript ([if (x)], [a && b]) is written out: a string is truthy when
      it is not empty, a number when it is not zero, an array always.
    - An optional property ([cuisine?: string], the [popularDishes] read
      through [data as any]) is an [option].
    - The constant lookup tables written as object literals are association
      lists searched by their own keys, in declaration order; a key that an
      object literal would resolve through its prototype (a cuisine tag
      spelled "constructor") is outside the model.
    - [Array.prototype.sort] is the stable sort of ECMAScript 2019 (the
      setup guide asks for Node.js 18 or later), here an insertion sort:
      under a comparator that is a total preorder the result of a stable
      sort does not depend on the algorithm.
    - The messages pushed by the analyzer are the source's text without the
      pictograph that leads them; no statement below depends on them.
    - What the generator draws at random (the rating) is a parameter.
    - [trim] removes the ASCII white space characters; the patterns
      [/word (\w+)/g] are matched from left to right, each search resuming
      at the end of the previous match, as [exec] does. *)

From Stdlib Require Import String Ascii List Bool ZArith QArith Lia.
From Stdlib Require Import Permutation Sorting.Sorted.
Import ListNotations.

Local Open Scope string_scope.
Local Open Scope Z_scope.

(** ** JavaScript primitives used by the code *)

Module JS.

(** [c.toLowerCase()] on one character. *)
Definition lowerAscii (c : ascii) : ascii :=
  let n := N_of_ascii c in
  if ((65 <=? n) && (n <=? 90))%N then ascii_of_N (n + 32) else c.

(** [s.toLowerCase()] *)
Fixpoint toLowerCase (s : string) : string :=
  match s with
  | EmptyString => EmptyString
  | String c s' => String (lowerAscii c) (toLowerCase s')
  end.

(** [s.includes(sub)]: [sub] occurs in [s] as a contiguous substring. *)
Fixpoint includes (s sub : string) : bool :=
  String.prefix sub s ||
  match s with
  | EmptyString => false
  | String _ s' => includes s' sub
  end.

(** [s.split(' ')[0]]: the text before the first space, the whole string
    when it has none. *)
Fixpoint firstWord (s : string) : string :=
  match s with
  | EmptyString => EmptyString
  | String c s' => if Ascii.eqb c " "%char then EmptyString
                   else String c (firstWord s')
  end.

(** [s.replace(a, b)] for one-character [a] and [b]: only the first
    occurrence is replaced. *)
Fixpoint replaceFirst (a b : ascii) (s : string) : string :=
  match s with
  | EmptyString => EmptyString
  | String c s' => if Ascii.eqb c a then String b s'
                   else String c (replaceFirst a b s')
  end.

(** [xs.join(sep)] *)
Definition join (sep : string) (xs : list string) : string :=
  String.concat sep xs.

(** [xs.includes(x)] on an array of strings. *)
Definition arrayIncludes (xs : list string) (x : string) : bool :=
  existsb (String.eqb x) xs.

(** [xs.some(p)] *)
Definition some {A : Type} (p : A -> bool) (xs : list A) : bool :=
  existsb p xs.

(** [if (s)] on an optional string: [undefined] and [''] are falsy. *)
Definition truthyStr (o : option string) : bool :=
  match o with
  | Some s => negb (String.eqb s "")
  | None => false
  end.

(** [if (n)] on an optional number: [undefined] and [0] are falsy. *)
Definition truthyNum (o : option Z) : bool :=
  match o with
  | Some n => negb (n =? 0)%Z
  | None => false
  end.

(** [xs.sort(cmp)]: [cmp a b] is the sign the comparator returns; [a] is
    placed before [b] exactly when the comparator does not return a
    positive number, so elements that compare equal keep their order. *)
Section Sort.
Context {A : Type} (cmp : A -> A -> comparison).

Definition notAfter (a b : A) : bool :=
  match cmp a b with
  | Gt => false
  | _ => true
  end.

Fixpoint insert (a : A) (xs : list A) : list A :=
  match xs with
  | [] => [a]
  | b :: xs' => if notAfter a b then a :: b :: xs'
                else b :: insert a xs'
  end.

Fixpoint sort (xs : list A) : list A :=
  match xs with
  | [] => []
  | a :: xs' => insert a (sort xs')
  end.
End Sort.

(** [c] is one of the ASCII white space characters [trim] removes (tab,
    line feed, vertical tab, form feed, carriage return, space). *)
Definition isWhiteSpace (c : ascii) : bool :=
  let n := N_of_ascii c in
  (((9 <=? n) && (n <=? 13)) || (n =? 32))%N.

Fixpoint trimStart (s : string) : string :=
  match s with
  | EmptyString => EmptyString
  | String c s' => if isWhiteSpace c then trimStart s' else s
  end.

Fixpoint trimEnd (s : string) : string :=
  match s with
  | EmptyString => EmptyString
  | String c s' =>
      match trimEnd s' with
      | EmptyString => if isWhiteSpace c then EmptyString
                       else String c EmptyString
      | t => String c t
      end
  end.

(** [s.trim()] *)
Definition trim (s : string) : string := trimEnd (trimStart s).

(** The class [\w] of a regular expression without the unicode flag. *)
Definition isWordChar (c : ascii) : bool :=
  let n := N_of_ascii c in
  (((48 <=? n) && (n <=? 57)) || ((65 <=? n) && (n <=? 90))
   || (n =? 95) || ((97 <=? n) && (n <=? 122)))%N.

(** The longest run of word characters at the start of [s]. *)
Fixpoint takeWord (s : string) : string :=
  match s with
  | EmptyString => EmptyString
  | String c s' => if isWordChar c then String c (takeWord s')
                   else EmptyString
  end.

(** [s] without its prefix [lit], when it has that prefix. *)
Fixpoint stripPrefix (lit s : string) : option string :=
  match lit, s with
  | EmptyString, _ => Some s
  | String a lit', String b s' =>
      if Ascii.eqb a b then stripPrefix lit' s' else None
  | String _ _, EmptyString => None
  end.

(** One attempt of the pattern [/lit(\w+)/] at the start of [s]: the
    captured word. *)
Definition matchAt (lit s : string) : option string :=
  match stripPrefix lit s with
  | Some rest =>
      let w := takeWord rest in
      if String.eqb w "" then None else Some w
  | None => None
  end.

(** The captures of [while ((match = pattern.exec(s)) !== null)] for the
    global pattern [/lit(\w+)/g]: the matches from left to right, each
    search resuming where the previous match ended.  [skip] counts the
    characters of the last match still to pass. *)
Fixpoint execAll (lit : string) (skip : nat) (s : string) : list string :=
  match s with
  | EmptyString => []
  | String _ s' =>
      match skip with
      | S k => execAll lit k s'
      | O =>
          match matchAt lit s with
          | Some w =>
              w :: execAll lit (String.length lit + String.length w - 1) s'
          | None => execAll lit 0 s'
          end
      end
  end.

End JS.

(** ** Data model (src/types/index.ts) *)

(** [DietaryRestrictionType] is a union of string literals; at run time a
    restriction is the string itself, and the query path compares it with an
    arbitrary string taken from the message. *)
Definition DietaryRestrictionType := string.

Record DietaryOption := mkDietaryOption {
  type : DietaryRestrictionType;
  available : bool;
  notes : option string
}.

(** The fields of [Restaurant] that the modelled functions read.  The
    remaining ones (id, location, phone, website, photos, openingHours,
    reviews, reservationUrl, menuUrl) are never inspected by them. *)
Record Restaurant := mkRestaurant {
  name : string;
  address : string;
  rating : Q;
  priceLevel : Z;
  cuisine : list string;
  dietaryOptions : list DietaryOption
}.

(** ** DietaryRestrictionsHandler (src/utils/dietary-restrictions.ts) *)

Module DietaryRestrictionsHandler.

Record DietaryAnalysis := mkAnalysis {
  compatible : bool;
  score : Z;
  warnings : list string;
  recommendations : list string;
  compatibleOptions : list DietaryRestrictionType;
  incompatibleOptions : list DietaryRestrictionType
}.

(** The in-place updates of the [analysis] object. *)
Definition pushWarning (w : string) (a : DietaryAnalysis) :=
  mkAnalysis (compatible a) (score a) (warnings a ++ [w]) (recommendations a)
             (compatibleOptions a) (incompatibleOptions a).

Definition pushRecommendation (r : string) (a : DietaryAnalysis) :=
  mkAnalysis (compatible a) (score a) (warnings a) (recommendations a ++ [r])
             (compatibleOptions a) (incompatibleOptions a).

Definition pushCompatible (t : DietaryRestrictionType) (a : DietaryAnalysis) :=
  mkAnalysis (compatible a) (score a) (warnings a) (recommendations a)
             (compatibleOptions a ++ [t]) (incompatibleOptions a).

Definition pushIncompatible (t : DietaryRestrictionType) (a : DietaryAnalysis) :=
  mkAnalysis (compatible a) (score a) (warnings a) (recommendations a)
             (compatibleOptions a) (incompatibleOptions a ++ [t]).

Definition addScore (d : Z) (a : DietaryAnalysis) :=
  mkAnalysis (compatible a) (score a + d) (warnings a) (recommendations a)
             (compatibleOptions a) (incompatibleOptions a).

Definition setScore (s : Z) (a : DietaryAnalysis) :=
  mkAnalysis (compatible a) s (warnings a) (recommendations a)
             (compatibleOptions a) (incompatibleOptions a).

Definition setCompatible (b : bool) (a : DietaryAnalysis) :=
  mkAnalysis b (score a) (warnings a) (recommendations a)
             (compatibleOptions a) (incompatibleOptions a).

(** Lookup in an object literal used as a table. *)
Fixpoint lookup {V : Type} (k : string) (tbl : list (string * V)) : option V :=
  match tbl with
  | [] => None
  | (k', v) :: tbl' => if String.eqb k k' then Some v else lookup k tbl'
  end.

Definition displayNames : list (string * string) :=
  [ ("vegetarian", "Vegetarian"); ("vegan", "Vegan");
    ("gluten-free", "Gluten-Free"); ("dairy-free", "Dairy-Free");
    ("nut-free", "Nut-Free"); ("shellfish-free", "Shellfish-Free");
    ("halal", "Halal"); ("kosher", "Kosher"); ("keto", "Keto/Ketogenic");
    ("paleo", "Paleo"); ("low-carb", "Low-Carb");
    ("diabetic-friendly", "Diabetic-Friendly") ].

(** [displayNames[restriction] || restriction] *)
Definition getRestrictionDisplayName (restriction : DietaryRestrictionType)
  : string :=
  match lookup restriction displayNames with
  | Some n => n
  | None => restriction
  end.

Definition critical : list DietaryRestrictionType :=
  [ "vegan"; "gluten-free"; "nut-free"; "shellfish-free"; "halal"; "kosher" ].

Definition isCriticalRestriction (restriction : DietaryRestrictionType)
  : bool :=
  JS.arrayIncludes critical restriction.

(** [restaurantOption?.available] for
    [restaurantOption = dietaryOptions.find(opt => opt.type === restriction)]:
    the FIRST entry of that type decides. *)
Definition optionAvailable (restaurant : Restaurant)
           (restriction : DietaryRestrictionType) : bool :=
  match find (fun opt => String.eqb (type opt) restriction)
             (dietaryOptions restaurant) with
  | Some opt => available opt
  | None => false
  end.

(** Body of the loop over [userRestrictions].  The messages are the
    source's without their leading pictograph. *)
Definition restrictionStep (restaurant : Restaurant) (analysis : DietaryAnalysis)
           (restriction : DietaryRestrictionType) : DietaryAnalysis :=
  if optionAvailable restaurant restriction then
    pushRecommendation
      (getRestrictionDisplayName restriction ++ " options available")
      (pushCompatible restriction analysis)
  else
    let analysis :=
      pushWarning
        ("Limited " ++ getRestrictionDisplayName restriction
                    ++ " options may be available")
        (addScore (-30) (pushIncompatible restriction analysis)) in
    if isCriticalRestriction restriction then
      addScore (-20) (setCompatible false analysis)
    else analysis.

Definition conflicts : list (string * list DietaryRestrictionType) :=
  [ ("vegan", ["vegetarian"]); ("keto", ["low-carb"]);
    ("paleo", ["gluten-free"]) ].

Definition conflictStep (restrictions : list DietaryRestrictionType)
           (analysis : DietaryAnalysis)
           (entry : string * list DietaryRestrictionType) : DietaryAnalysis :=
  let '(primary, conflicting) := entry in
  if JS.arrayIncludes restrictions primary then
    if JS.some (fun c => JS.arrayIncludes restrictions c) conflicting then
      pushRecommendation
        ("Note: " ++ primary ++ " diet includes "
                  ++ JS.join ", " conflicting ++ " restrictions")
        analysis
    else analysis
  else analysis.

Definition checkConflictingRestrictions
           (restrictions : list DietaryRestrictionType)
           (analysis : DietaryAnalysis) : DietaryAnalysis :=
  fold_left (conflictStep restrictions) conflicts analysis.

Definition cuisineCompatibility : list (string * list (string * Z)) :=
  [ ("indian", [ ("vegetarian", 90); ("vegan", 70); ("gluten-free", 60);
                 ("dairy-free", 40); ("halal", 80) ]);
    ("mediterranean", [ ("vegetarian", 85); ("vegan", 65);
                        ("gluten-free", 70); ("dairy-free", 60);
                        ("halal", 70) ]);
    ("japanese", [ ("vegetarian", 60); ("vegan", 50); ("gluten-free", 40);
                   ("dairy-free", 80); ("shellfish-free", 30) ]);
    ("italian", [ ("vegetarian", 75); ("vegan", 55); ("gluten-free", 40);
                  ("dairy-free", 35) ]);
    ("mexican", [ ("vegetarian", 70); ("vegan", 60); ("gluten-free", 50);
                  ("dairy-free", 45); ("halal", 60) ]);
    ("chinese", [ ("vegetarian", 80); ("vegan", 70); ("gluten-free", 45);
                  ("dairy-free", 75); ("halal", 50) ]) ].

Definition cuisineRestrictionStep (cuisine : string)
           (compatibility : list (string * Z)) (analysis : DietaryAnalysis)
           (restriction : DietaryRestrictionType) : DietaryAnalysis :=
  match lookup restriction compatibility with
  | Some score =>
      if 80 <=? score then
        pushRecommendation
          (cuisine ++ " cuisine is excellent for "
                   ++ getRestrictionDisplayName restriction ++ " diets")
          analysis
      else if 60 <=? score then
        pushRecommendation
          (cuisine ++ " cuisine has good "
                   ++ getRestrictionDisplayName restriction ++ " options")
          analysis
      else if score <? 40 then
        pushWarning
          (cuisine ++ " cuisine may have limited "
                   ++ getRestrictionDisplayName restriction ++ " options")
          analysis
      else analysis
  | None => analysis
  end.

Definition cuisineStep (restrictions : list DietaryRestrictionType)
           (analysis : DietaryAnalysis) (cuisine : string) : DietaryAnalysis :=
  match lookup (JS.toLowerCase cuisine) cuisineCompatibility with
  | Some compatibility =>
      fold_left (cuisineRestrictionStep cuisine compatibility)
                restrictions analysis
  | None => analysis
  end.

Definition analyzeCuisineCompatibility (cuisines : list string)
           (restrictions : list DietaryRestrictionType)
           (analysis : DietaryAnalysis) : DietaryAnalysis :=
  fold_left (cuisineStep restrictions) cuisines analysis.

Definition cuisineAllergyRisks : list (string * list string) :=
  [ ("asian", ["soy"; "sesame"; "shellfish"; "fish"]);
    ("japanese", ["fish"; "shellfish"; "soy"]);
    ("chinese", ["soy"; "sesame"; "shellfish"; "nuts"]);
    ("thai", ["shellfish"; "fish"; "nuts"]);
    ("indian", ["nuts"; "dairy"]);
    ("mediterranean", ["nuts"; "fish"; "sesame"]);
    ("middle_eastern", ["sesame"; "nuts"]);
    ("italian", ["eggs"; "dairy"]) ].

Definition allergyStep (allergies : list string) (analysis : DietaryAnalysis)
           (cuisine : string) : DietaryAnalysis :=
  match lookup (JS.toLowerCase cuisine) cuisineAllergyRisks with
  | Some risks =>
      let matchingRisks :=
        filter (fun risk =>
                  JS.some (fun allergy =>
                             JS.includes (JS.toLowerCase allergy) risk)
                          allergies)
               risks in
      if (0 <? Z.of_nat (length matchingRisks)) then
        addScore (-10)
          (pushWarning
             (cuisine ++ " cuisine commonly uses "
                      ++ JS.join ", " matchingRisks
                      ++ " - please inform restaurant of allergies")
             analysis)
      else analysis
  | None => analysis
  end.

Definition checkAllergyWarnings (restaurant : Restaurant)
           (allergies : list string) (analysis : DietaryAnalysis)
  : DietaryAnalysis :=
  fold_left (allergyStep allergies) (cuisine restaurant) analysis.

Definition initialAnalysis : DietaryAnalysis :=
  mkAnalysis true 100 [] [] [] [].

Definition extensiveBonus (restaurant : Restaurant)
           (analysis : DietaryAnalysis) : DietaryAnalysis :=
  if 5 <? Z.of_nat (length (filter available (dietaryOptions restaurant)))
  then
    pushRecommendation
      "Restaurant has extensive dietary accommodation options"
      (addScore 10 analysis)
  else analysis.

(** [Math.max(0, Math.min(100, analysis.score))] *)
Definition clampScore (analysis : DietaryAnalysis) : DietaryAnalysis :=
  setScore (Z.max 0 (Z.min 100 (score analysis))) analysis.

Definition analyzeRestaurantCompatibility (restaurant : Restaurant)
           (userRestrictions : list DietaryRestrictionType)
           (userAllergies : list string) : DietaryAnalysis :=
  let analysis := initialAnalysis in
  if (length userRestrictions =? 0)%nat && (length userAllergies =? 0)%nat
  then
    pushRecommendation
      "No dietary restrictions specified - all options should be available"
      analysis
  else
    let analysis :=
      fold_left (restrictionStep restaurant) userRestrictions analysis in
    let analysis := checkConflictingRestrictions userRestrictions analysis in
    let analysis :=
      analyzeCuisineCompatibility (cuisine restaurant) userRestrictions
                                  analysis in
    let analysis := checkAllergyWarnings restaurant userAllergies analysis in
    let analysis := extensiveBonus restaurant analysis in
    clampScore analysis.

(** [Object.entries(RESTRICTION_KEYWORDS)]: the keys in declaration order. *)
Definition RESTRICTION_KEYWORDS : list (DietaryRestrictionType * list string) :=
  [ ("vegetarian", ["vegetarian"; "veggie"; "no meat"; "no fish";
                    "no chicken"; "no beef"; "no pork"; "plant based";
                    "meatless"]);
    ("vegan", ["vegan"; "plant based"; "no dairy"; "no eggs";
               "no animal products"; "no cheese"; "no milk"; "no butter";
               "plant only"]);
    ("gluten-free", ["gluten free"; "gluten-free"; "celiac"; "no gluten";
                     "no wheat"; "no barley"; "no rye"; "wheat free"; "gf"]);
    ("dairy-free", ["dairy free"; "dairy-free"; "no dairy"; "no milk";
                    "no cheese"; "no yogurt"; "no cream";
                    "lactose intolerant"; "lactose free"]);
    ("nut-free", ["nut free"; "nut-free"; "no nuts"; "no peanuts";
                  "no almonds"; "nut allergy"; "peanut allergy";
                  "tree nut free"]);
    ("shellfish-free", ["shellfish free"; "shellfish-free"; "no shellfish";
                        "no shrimp"; "no crab"; "no lobster";
                        "shellfish allergy"; "seafood allergy"]);
    ("halal", ["halal"; "islamic"; "muslim"; "no pork"; "no alcohol";
               "halal certified"; "sharia compliant"]);
    ("kosher", ["kosher"; "jewish"; "kashrus"; "kashrut"; "no pork";
                "no shellfish"; "kosher certified"; "pareve"; "parve"]);
    ("keto", ["keto"; "ketogenic"; "low carb"; "no carbs"; "no sugar";
              "no bread"; "no pasta"; "no rice"; "high fat low carb"]);
    ("paleo", ["paleo"; "paleolithic"; "caveman diet"; "no grains";
               "no legumes"; "no processed"; "whole foods"; "primal"]);
    ("low-carb", ["low carb"; "low-carb"; "no carbs"; "reduced carbs";
                  "carb free"; "no bread"; "no pasta"; "no rice";
                  "no potatoes"]);
    ("diabetic-friendly", ["diabetic"; "diabetes friendly"; "sugar free";
                           "no sugar"; "low sugar"; "diabetic diet";
                           "blood sugar friendly"; "glucose friendly"]) ].

Definition ALLERGY_KEYWORDS : list (string * list string) :=
  [ ("nuts", ["nut"; "peanut"; "almond"; "walnut"; "cashew"; "pistachio";
              "hazelnut"; "pecan"]);
    ("shellfish", ["shellfish"; "shrimp"; "crab"; "lobster"; "oyster";
                   "mussel"; "scallop"]);
    ("fish", ["fish"; "salmon"; "tuna"; "cod"; "halibut"; "seafood"]);
    ("eggs", ["egg"; "eggs"; "mayonnaise"; "mayo"]);
    ("soy", ["soy"; "soya"; "tofu"; "tempeh"; "miso"; "edamame"]);
    ("sesame", ["sesame"; "tahini"; "sesame seed"; "sesame oil"]);
    ("sulfites", ["sulfite"; "sulfur dioxide"; "preservative"]) ].

Record ParsedDietaryInfo := mkParsed {
  restrictions : list DietaryRestrictionType;
  allergies : list string;
  preferences : list string;
  confidence : Z
}.

(** [keywords.filter(keyword =>
       normalizedText.includes(keyword.toLowerCase())).length] *)
Definition matchCount (normalizedText : string) (keywords : list string) : Z :=
  Z.of_nat
    (length (filter (fun keyword =>
                       JS.includes normalizedText (JS.toLowerCase keyword))
                    keywords)).

(** Body of the two keyword loops: the state is the list of tags pushed so
    far and the confidence; [weight] is 10 for restrictions and 15 for
    allergies. *)
Definition keywordStep (normalizedText : string) (weight : Z)
           (st : list string * Z) (entry : string * list string)
  : list string * Z :=
  let '(tag, keywords) := entry in
  let n := matchCount normalizedText keywords in
  if 0 <? n then ((fst st ++ [tag])%list, snd st + n * weight) else st.

(** The literal heads of the patterns [/prefer (\w+)/g], [/like (\w+)/g],
    [/love (\w+)/g] and [/enjoy (\w+)/g]. *)
Definition preferencePatterns : list string :=
  [ "prefer "; "like "; "love "; "enjoy " ].

(** Body of [preferencePatterns.forEach]: every capture is pushed and adds
    5 to the confidence. *)
Definition preferenceStep (normalizedText : string) (st : list string * Z)
           (lit : string) : list string * Z :=
  let found := JS.execAll lit 0 normalizedText in
  ((fst st ++ found)%list, snd st + 5 * Z.of_nat (length found)).

Definition parseDietaryInformation (text : string) : ParsedDietaryInfo :=
  let normalizedText := JS.trim (JS.toLowerCase text) in
  let confidence := 0 in
  let '(restrictions, confidence) :=
    fold_left (keywordStep normalizedText 10) RESTRICTION_KEYWORDS
              ([], confidence) in
  let '(allergies, confidence) :=
    fold_left (keywordStep normalizedText 15) ALLERGY_KEYWORDS
              ([], confidence) in
  let '(preferences, confidence) :=
    fold_left (preferenceStep normalizedText) preferencePatterns
              ([], confidence) in
  mkParsed restrictions allergies preferences (Z.min confidence 100).

(** The default of the parameter [minCompatibilityScore]. *)
Definition defaultMinCompatibilityScore : Z := 60.

(** The comparator [(a, b) => b.analysis.score - a.analysis.score], as the
    sign of the number it returns. *)
Definition compareAnalyses (a b : Restaurant * DietaryAnalysis) : comparison :=
  score (snd b) ?= score (snd a).

Definition filterRestaurantsByDietary (restaurants : list Restaurant)
           (restrictions : list DietaryRestrictionType)
           (allergies : list string) (minCompatibilityScore : Z)
  : list (Restaurant * DietaryAnalysis) :=
  JS.sort compareAnalyses
    (filter (fun ra => minCompatibilityScore <=? score (snd ra))
       (map (fun restaurant =>
               (restaurant,
                analyzeRestaurantCompatibility restaurant restrictions
                                               allergies))
            restaurants)).

Definition createDietarySearchSuggestion (text : string) : list string :=
  let parsed := parseDietaryInformation text in
  let suggestions := [] in
  let suggestions :=
    if (0 <? length (restrictions parsed))%nat
    then (suggestions
            ++ [("Search for restaurants with "
                   ++ JS.join ", " (map getRestrictionDisplayName
                                        (restrictions parsed))
                   ++ " options")%string])%list
    else suggestions in
  let suggestions :=
    if (0 <? length (allergies parsed))%nat
    then (suggestions
            ++ [("Filter out restaurants that commonly use "
                   ++ JS.join ", " (allergies parsed))%string])%list
    else suggestions in
  let suggestions :=
    if (0 <? length (preferences parsed))%nat
    then (suggestions
            ++ [("Look for restaurants featuring "
                   ++ JS.join ", " (preferences parsed))%string])%list
    else suggestions in
  suggestions.

End DietaryRestrictionsHandler.

(** ** RestaurantDataGenerator (src/generators/restaurant-generator.ts) *)

Module RestaurantDataGenerator.

Record NameAnalysis := mkNameAnalysis {
  cuisines : list string;
  restaurantType : string;
  na_priceLevel : Z;
  expectedQuality : Q;
  confidence : Z
}.

(** [Object.entries(cuisineIndicators)]: the keys in declaration order. *)
Definition cuisineIndicators : list (string * list string) :=
  [ ("italian", ["pizza"; "pasta"; "giovanni"; "mario"; "luigi"; "bella";
                 "roma"; "milano"; "trattoria"; "osteria"; "ristorante"]);
    ("chinese", ["dragon"; "golden"; "panda"; "wok"; "china"; "beijing";
                 "shanghai"; "szechuan"; "hunan"]);
    ("mexican", ["casa"; "el"; "la"; "taco"; "burrito"; "cantina"; "fiesta";
                 "sol"; "maria"; "jose"]);
    ("japanese", ["sushi"; "ramen"; "hibachi"; "sake"; "tokyo"; "osaka";
                  "zen"; "mizu"; "hana"]);
    ("indian", ["taj"; "curry"; "masala"; "tandoor"; "spice"; "mumbai";
                "delhi"; "punjab"]);
    ("thai", ["thai"; "bangkok"; "pad"; "som"; "tom"; "green"; "red";
              "basil"]);
    ("french", ["cafe"; "bistro"; "brasserie"; "le"; "la"; "chez"; "paris";
                "lyon"]);
    ("american", ["grill"; "diner"; "tavern"; "pub"; "kitchen"; "house";
                  "bar"; "steakhouse"]);
    ("mediterranean", ["olive"; "mediterranean"; "greco"; "cyprus";
                       "athens"; "santorini"]);
    ("korean", ["kim"; "seoul"; "korean"; "bbq"; "bulgogi"; "kimchi"]) ].

(** [indicators.some(indicator => nameLower.includes(indicator))] *)
Definition indicatorsMatch (nameLower : string) (indicators : list string)
  : bool :=
  JS.some (fun indicator => JS.includes nameLower indicator) indicators.

(** The cuisine-detection loop, with its [break] on the first hit; the
    state is the pair ([cuisines], [confidence]). *)
Fixpoint detectCuisine (nameLower : string)
         (entries : list (string * list string))
         (st : list string * Z) : list string * Z :=
  match entries with
  | [] => st
  | (cuisine, indicators) :: rest =>
      if indicatorsMatch nameLower indicators
      then ((fst st ++ [cuisine])%list, snd st + 10)
      else detectCuisine nameLower rest st
  end.

Definition analyzeRestaurantName (name : string) : NameAnalysis :=
  let nameLower := JS.toLowerCase name in
  let '(cuisines, confidence) :=
    detectCuisine nameLower cuisineIndicators ([], 75) in
  let '(cuisines, confidence) :=
    if (length cuisines =? 0)%nat
    then ((cuisines ++ ["american"])%list, confidence - 20)
    else (cuisines, confidence) in
  let '(restaurantType, priceLevel, expectedQuality) :=
    if JS.includes nameLower "fine" || JS.includes nameLower "fine dining"
       || JS.includes nameLower "prime"
    then ("fine_dining", 4, 4.5%Q)
    else if JS.includes nameLower "fast" || JS.includes nameLower "quick"
            || JS.includes nameLower "express"
    then ("fast_casual", 1, 3.5%Q)
    else if JS.includes nameLower "cafe" || JS.includes nameLower "coffee"
    then ("cafe", 2, 4.0%Q)
    else if JS.includes nameLower "bar" || JS.includes nameLower "pub"
            || JS.includes nameLower "tavern"
    then ("bar_restaurant", 2, 3.8%Q)
    else ("casual_dining", 2, 4.0%Q) in
  mkNameAnalysis cuisines restaurantType priceLevel expectedQuality
                 (Z.min confidence 95).

Record LocationAnalysis := mkLocationAnalysis {
  priceMultiplier : Q;
  locationStyle : string
}.

Definition urbanIndicators : list string :=
  ["downtown"; "city center"; "main st"; "broadway"; "avenue"; "plaza"].

Definition upscaleIndicators : list string :=
  ["hills"; "heights"; "park"; "gardens"; "estates"].

Definition analyzeLocation (address : string) : LocationAnalysis :=
  let addressLower := JS.toLowerCase address in
  let st := mkLocationAnalysis 1.0%Q "suburban" in
  let st :=
    if indicatorsMatch addressLower urbanIndicators
    then mkLocationAnalysis 1.3%Q "urban" else st in
  let st :=
    if indicatorsMatch addressLower upscaleIndicators
    then mkLocationAnalysis 1.5%Q "upscale" else st in
  st.

(** [xs.find(opt => opt.type === t)!.f = ...]: the first entry of type [t]
    is updated in place. *)
Fixpoint updateFirst (t : DietaryRestrictionType)
         (f : DietaryOption -> DietaryOption) (xs : list DietaryOption)
  : list DietaryOption :=
  match xs with
  | [] => []
  | opt :: xs' => if String.eqb (type opt) t then f opt :: xs'
                  else opt :: updateFirst t f xs'
  end.

Definition setAvailable (b : bool) (opt : DietaryOption) : DietaryOption :=
  mkDietaryOption (type opt) b (notes opt).

Definition setNotes (n : string) (opt : DietaryOption) : DietaryOption :=
  mkDietaryOption (type opt) (available opt) (Some n).

Definition baseDietaryOptions : list DietaryOption :=
  [ mkDietaryOption "vegetarian" true
                    (Some "Multiple vegetarian options available");
    mkDietaryOption "vegan" false None;
    mkDietaryOption "gluten-free" false None;
    mkDietaryOption "dairy-free" false None;
    mkDietaryOption "nut-free" true
                    (Some "Can accommodate nut allergies with notice");
    mkDietaryOption "shellfish-free" true
                    (Some "No shellfish in most dishes");
    mkDietaryOption "halal" false None;
    mkDietaryOption "kosher" false None;
    mkDietaryOption "keto" false None;
    mkDietaryOption "paleo" false None;
    mkDietaryOption "low-carb" false None;
    mkDietaryOption "diabetic-friendly" true
                    (Some "Several lighter options available") ].

(** [primaryCuisine === c] for [primaryCuisine = cuisines[0]], which is
    [undefined] on an empty array. *)
Definition primaryIs (primaryCuisine : option string) (c : string) : bool :=
  match primaryCuisine with
  | Some p => String.eqb p c
  | None => false
  end.

Definition generateDietaryOptions (cuisines : list string)
  : list DietaryOption :=
  let opts := baseDietaryOptions in
  let primaryCuisine := hd_error cuisines in
  let opts :=
    if primaryIs primaryCuisine "indian"
       || primaryIs primaryCuisine "mediterranean"
    then
      let opts := updateFirst "vegetarian" (setAvailable true) opts in
      let opts :=
        updateFirst "vegetarian" (setNotes "Extensive vegetarian menu")
                    opts in
      let opts := updateFirst "vegan" (setAvailable true) opts in
      updateFirst "vegan" (setNotes "Several vegan dishes available") opts
    else opts in
  let opts :=
    if primaryIs primaryCuisine "japanese"
       || primaryIs primaryCuisine "thai"
    then
      let opts := updateFirst "gluten-free" (setAvailable true) opts in
      let opts :=
        updateFirst "gluten-free" (setNotes "Rice-based dishes available")
                    opts in
      let opts := updateFirst "dairy-free" (setAvailable true) opts in
      updateFirst "dairy-free"
                  (setNotes "Many dishes naturally dairy-free") opts
    else opts in
  let opts :=
    if primaryIs primaryCuisine "mexican"
       || primaryIs primaryCuisine "mediterranean"
    then
      let opts := updateFirst "halal" (setAvailable true) opts in
      updateFirst "halal" (setNotes "Halal meat options available") opts
    else opts in
  opts.

End RestaurantDataGenerator.

(** ** EnhancedConciergeAgent (src/agents/enhanced-concierge.ts) *)

Module EnhancedConciergeAgent.

(** A cache entry, as [JSON.parse] returns it from a file: nothing checks it
    against the declared type.  [popularDishes] and [specialFeatures] are
    the extended properties the agent reads through [data as any]; a file
    that lacks them yields [undefined].  Of the restaurant object the agent
    reads [dietaryOptions] only behind the guard [restaurant.dietaryOptions]:
    [dietaryOptionsPresent] is the value of that guard, [false] for a file
    whose restaurant object has no such array, and then
    [dietaryOptions (restaurant data)] stands for nothing and is not read. *)
Record GeneratedRestaurantData := mkData {
  restaurant : Restaurant;
  generatedFields : list string;
  confidence : Z;
  popularDishes : option (list string);
  specialFeatures : option (list string);
  dietaryOptionsPresent : bool
}.

(** [restaurantCache]: a [Map], iterated in insertion order. *)
Definition Cache := list (string * GeneratedRestaurantData).

(** [cache.set(key, data)]: an existing key keeps its place and takes the
    new value, a new key goes last. *)
Fixpoint cacheSet (key : string) (data : GeneratedRestaurantData)
         (cache : Cache) : Cache :=
  match cache with
  | [] => [(key, data)]
  | (k, d) :: cache' => if String.eqb k key then (k, data) :: cache'
                        else (k, d) :: cacheSet key data cache'
  end.

(** The loop of [loadRestaurantData] over the files that parsed. *)
Definition loadCache (files : list GeneratedRestaurantData) : Cache :=
  fold_left (fun cache data =>
               cacheSet (JS.toLowerCase (name (restaurant data))) data cache)
            files [].

Record SearchFilters := mkFilters {
  f_cuisine : option string;
  f_priceLevel : option Z;
  f_dietary : option string;
  f_amenity : option string
}.

(** The [for ... break] loops of [extractSearchFilters]: the first table
    word that occurs in the query. *)
Definition firstIncluded (queryLower : string) (words : list string)
  : option string :=
  find (fun w => JS.includes queryLower w) words.

Definition cuisineWords : list string :=
  [ "italian"; "chinese"; "japanese"; "mexican"; "indian"; "thai";
    "french"; "american"; "mediterranean"; "korean" ].

Definition dietaryWords : list string :=
  [ "vegetarian"; "vegan"; "gluten-free"; "halal"; "kosher"; "dairy-free";
    "nut-free" ].

Definition extractSearchFilters (messageText : string) : SearchFilters :=
  let queryLower := JS.toLowerCase messageText in
  let cuisine := firstIncluded queryLower cuisineWords in
  let priceLevel :=
    if JS.includes queryLower "cheap" || JS.includes queryLower "budget"
       || JS.includes queryLower "affordable"
    then Some 1
    else if JS.includes queryLower "expensive"
            || JS.includes queryLower "upscale"
            || JS.includes queryLower "fine dining"
    then Some 4
    else if JS.includes queryLower "mid-range"
            || JS.includes queryLower "moderate"
    then Some 2
    else None in
  let dietary := firstIncluded queryLower dietaryWords in
  let amenity :=
    if JS.includes queryLower "outdoor" || JS.includes queryLower "patio"
    then Some "outdoor_seating"
    else if JS.includes queryLower "delivery" then Some "delivery"
    else if JS.includes queryLower "takeout" then Some "takeout"
    else if JS.includes queryLower "parking" then Some "parking"
    else None in
  mkFilters cuisine priceLevel dietary amenity.

(** [x || []] *)
Definition orEmpty (o : option (list string)) : list string :=
  match o with
  | Some xs => xs
  | None => []
  end.

(** The keyword stage of the loop body: the four [if]s that set [matches]
    and add to [score], from [matches = false], [score = 0]. *)
Definition keywordStage (queryLower name : string)
           (data : GeneratedRestaurantData) : bool * Z :=
  let st := (false, 0) in
  let st :=
    if JS.includes name queryLower || JS.includes queryLower name
    then (true, snd st + 10) else st in
  let st :=
    if JS.some (fun cuisine =>
                  JS.includes queryLower cuisine
                  || JS.includes cuisine (JS.firstWord queryLower))
               (cuisine (restaurant data))
    then (true, snd st + 8) else st in
  let st :=
    if JS.some (fun dish => JS.includes queryLower (JS.toLowerCase dish))
               (orEmpty (popularDishes data))
    then (true, snd st + 6) else st in
  let st :=
    if JS.some (fun feature =>
                  JS.includes queryLower (JS.toLowerCase feature))
               (orEmpty (specialFeatures data))
    then (true, snd st + 4) else st in
  st.

(** [restaurant.dietaryOptions.some(opt => opt.type === d && opt.available)] *)
Definition hasDietary (r : Restaurant) (d : string) : bool :=
  JS.some (fun opt => String.eqb (type opt) d && available opt)
          (dietaryOptions r).

(** [specialFeatures.some(feature =>
      feature.toLowerCase().includes(amenity.replace('_', ' ') || ''))];
    the replacement of a non-empty string is non-empty, so [|| ''] never
    takes its right side here. *)
Definition hasAmenity (features : list string) (a : string) : bool :=
  JS.some (fun feature =>
             JS.includes (JS.toLowerCase feature)
                         (JS.replaceFirst "_"%char " "%char a))
          features.

Definition cuisineFilter (filters : SearchFilters) (r : Restaurant)
           (st : bool * Z) : bool * Z :=
  match f_cuisine filters with
  | Some c =>
      if JS.truthyStr (Some c)
         && negb (JS.arrayIncludes (cuisine r) (JS.toLowerCase c))
      then (false, snd st) else st
  | None => st
  end.

Definition priceFilter (filters : SearchFilters) (r : Restaurant)
           (st : bool * Z) : bool * Z :=
  match f_priceLevel filters with
  | Some p =>
      if JS.truthyNum (Some p) && negb (priceLevel r =? p)
      then (false, snd st) else st
  | None => st
  end.

(** [if (filters.dietary && restaurant.dietaryOptions) { ... }] *)
Definition dietaryFilter (filters : SearchFilters)
           (data : GeneratedRestaurantData) (st : bool * Z) : bool * Z :=
  match f_dietary filters with
  | Some d =>
      if JS.truthyStr (Some d) && dietaryOptionsPresent data then
        if negb (hasDietary (restaurant data) d) then (false, snd st)
        else (fst st, snd st + 5)
      else st
  | None => st
  end.

Definition amenityFilter (filters : SearchFilters)
           (data : GeneratedRestaurantData) (st : bool * Z) : bool * Z :=
  match f_amenity filters, specialFeatures data with
  | Some a, Some features =>
      if JS.truthyStr (Some a) then
        if negb (hasAmenity features a) then (false, snd st)
        else (fst st, snd st + 3)
      else st
  | _, _ => st
  end.

(** The filter stage: entered only [if (matches)]. *)
Definition filterStage (filters : SearchFilters)
           (data : GeneratedRestaurantData) (st : bool * Z) : bool * Z :=
  if fst st then
    let st := cuisineFilter filters (restaurant data) st in
    let st := priceFilter filters (restaurant data) st in
    let st := dietaryFilter filters data st in
    amenityFilter filters data st
  else st.

(** [{...data, searchScore: score}] *)
Record SearchResult := mkResult {
  data : GeneratedRestaurantData;
  searchScore : Z
}.

(** One iteration of the loop over [restaurantCache.entries()]. *)
Definition searchStep (queryLower : string) (filters : SearchFilters)
           (results : list SearchResult)
           (entry : string * GeneratedRestaurantData) : list SearchResult :=
  let '(name, data) := entry in
  let st := filterStage filters data (keywordStage queryLower name data) in
  if fst st then (results ++ [mkResult data (snd st)])%list else results.

(** The comparator of the final sort, as the sign of the number it
    returns: [b.searchScore - a.searchScore] when the scores differ,
    [b.restaurant.rating - a.restaurant.rating] otherwise. *)
Definition compareResults (a b : SearchResult) : comparison :=
  if negb (searchScore a =? searchScore b)
  then searchScore b ?= searchScore a
  else (rating (restaurant (data b)) ?= rating (restaurant (data a)))%Q.

(** The results in cache order, before the sort. *)
Definition collectResults (cache : Cache) (query : string)
           (filters : SearchFilters) : list SearchResult :=
  fold_left (searchStep (JS.toLowerCase query) filters) cache [].

Definition searchRestaurants (cache : Cache) (query : string)
           (filters : SearchFilters) : list SearchResult :=
  JS.sort compareResults (collectResults cache query filters).

(** [handleRestaurantSearch] up to the formatting of the reply. *)
Definition handleRestaurantSearch (cache : Cache) (messageText : string)
  : list SearchResult :=
  let searchFilters := extractSearchFilters messageText in
  searchRestaurants cache messageText searchFilters.

(** [restaurantCache.get(key)] *)
Fixpoint cacheGet (key : string) (cache : Cache)
  : option GeneratedRestaurantData :=
  match cache with
  | [] => None
  | (k, d) :: cache' => if String.eqb k key then Some d
                        else cacheGet key cache'
  end.

(** [Array.from(restaurantCache.keys()).find(name =>
       messageText.includes(name)
       || messageText.includes(name.split(' ')[0]))], the restaurant a
    message mentions, in [handleReservationRequest] and
    [getDefaultResponse]. *)
Definition mentionedRestaurant (cache : Cache) (messageText : string)
  : option string :=
  find (fun name =>
          JS.includes messageText name
          || JS.includes messageText (JS.firstWord name))
       (map fst cache).

(** The restaurant [handleReservationRequest] and [getDefaultResponse] go
    on with: [restaurantCache.get(mentionedRestaurant)!], reached only when
    [mentionedRestaurant] is truthy ([if (!mentionedRestaurant) return ...],
    [if (mentionedRestaurant) { ... }]): a key found but empty takes the
    branch of no mention.  The outer [option] is that test, the inner one
    the [get]. *)
Definition mentionedData (cache : Cache) (messageText : string)
  : option (option GeneratedRestaurantData) :=
  match mentionedRestaurant cache messageText with
  | Some key =>
      if JS.truthyStr (Some key) then Some (cacheGet key cache) else None
  | None => None
  end.

End EnhancedConciergeAgent.

(** ** The earlier agent (src/unnamed/part_000)

    The same class before the scores and the dietary and amenity filters:
    its [searchRestaurants] takes a cuisine and a price filter and sorts by
    rating alone. *)

Module BasicConciergeAgent.
Import EnhancedConciergeAgent.

Record BasicFilters := mkBasicFilters {
  b_cuisine : option string;
  b_priceLevel : option Z
}.

(** The three keyword tests that set [matches]. *)
Definition keywordMatch (queryLower name : string)
           (data : GeneratedRestaurantData) : bool :=
  let matches := false in
  let matches :=
    if JS.includes name queryLower || JS.includes queryLower name
    then true else matches in
  let matches :=
    if JS.some (fun cuisine =>
                  JS.includes queryLower cuisine
                  || JS.includes cuisine (JS.firstWord queryLower))
               (cuisine (restaurant data))
    then true else matches in
  let matches :=
    if JS.some (fun dish => JS.includes queryLower (JS.toLowerCase dish))
               (orEmpty (popularDishes data))
    then true else matches in
  matches.

Definition applyFilters (filters : BasicFilters) (r : Restaurant)
           (matches : bool) : bool :=
  if matches then
    let matches :=
      match b_cuisine filters with
      | Some c =>
          if JS.truthyStr (Some c)
             && negb (JS.arrayIncludes (cuisine r) (JS.toLowerCase c))
          then false else matches
      | None => matches
      end in
    let matches :=
      match b_priceLevel filters with
      | Some p =>
          if JS.truthyNum (Some p) && negb (priceLevel r =? p)
          then false else matches
      | None => matches
      end in
    matches
  else matches.

Definition searchStep (queryLower : string) (filters : BasicFilters)
           (results : list GeneratedRestaurantData)
           (entry : string * GeneratedRestaurantData)
  : list GeneratedRestaurantData :=
  let '(name, data) := entry in
  if applyFilters filters (restaurant data)
                  (keywordMatch queryLower name data)
  then (results ++ [data])%list else results.

(** [(a, b) => b.restaurant.rating - a.restaurant.rating] *)
Definition compareRatings (a b : GeneratedRestaurantData) : comparison :=
  (rating (restaurant b) ?= rating (restaurant a))%Q.

Definition searchRestaurants (cache : Cache) (query : string)
           (filters : BasicFilters) : list GeneratedRestaurantData :=
  JS.sort compareRatings
          (fold_left (searchStep (JS.toLowerCase query) filters) cache []).

End BasicConciergeAgent.

(** ** Vocabulary of the statements *)

Module Spec.
Import EnhancedConciergeAgent.

(** The restriction tags the analyzer treats as critical. *)
Definition criticalSet : list DietaryRestrictionType :=
  [ "vegan"; "gluten-free"; "nut-free"; "shellfish-free"; "halal"; "kosher" ].

(** The restaurant has an accommodation entry for [t] that is available. *)
Definition accommodates (r : Restaurant) (t : DietaryRestrictionType) : Prop :=
  exists opt, In opt (dietaryOptions r) /\ type opt = t /\ available opt = true.

(** [a] may stand before [b] in a ranking: a higher score, or the same
    score and a rating that is not lower. *)
Definition rankedBefore (a b : SearchResult) : Prop :=
  searchScore b < searchScore a \/
  (searchScore a = searchScore b /\
   (rating (restaurant (data b)) <= rating (restaurant (data a)))%Q).

(** The results whose score is [s] and whose rating equals [q]. *)
Definition sameRank (s : Z) (q : Q) (x : SearchResult) : bool :=
  (searchScore x =? s) && Qeq_bool (rating (restaurant (data x))) q.

(** What one cache entry contributes to the result list. *)
Definition entryResult (queryLower : string) (filters : SearchFilters)
           (entry : string * GeneratedRestaurantData) : list SearchResult :=
  searchStep queryLower filters [] entry.

(** The filters with the amenity set to [a]. *)
Definition withAmenity (filters : SearchFilters) (a : string) : SearchFilters :=
  mkFilters (f_cuisine filters) (f_priceLevel filters) (f_dietary filters)
            (Some a).

(** What a requested amenity does to a result obtained without it. *)
Definition amenityEffect (a : string) (x : SearchResult) : list SearchResult :=
  match specialFeatures (data x) with
  | None => [x]
  | Some features =>
      if hasAmenity features a
      then [mkResult (data x) (searchScore x + 3)]
      else []
  end.

(** Every cache key is the lower-cased name of its restaurant, as
    [loadRestaurantData] stores it. *)
Definition keyedByName (cache : Cache) : Prop :=
  forall k d, In (k, d) cache -> k = JS.toLowerCase (name (restaurant d)).

(** The record [generateMockData] builds, the random rating given. *)
Definition generatedRestaurant (name address : string) (rating : Q)
  : Restaurant :=
  let analysis := RestaurantDataGenerator.analyzeRestaurantName name in
  mkRestaurant name address rating
               (RestaurantDataGenerator.na_priceLevel analysis)
               (RestaurantDataGenerator.cuisines analysis)
               (RestaurantDataGenerator.generateDietaryOptions
                  (RestaurantDataGenerator.cuisines analysis)).

(** The four options the generator's base table offers. *)
Definition alwaysOffered : list DietaryRestrictionType :=
  [ "vegetarian"; "nut-free"; "shellfish-free"; "diabetic-friendly" ].

(** The part of an analysis that only the restriction loop writes. *)
Definition verdict (a : DietaryRestrictionsHandler.DietaryAnalysis)
  : bool * list DietaryRestrictionType * list DietaryRestrictionType :=
  (DietaryRestrictionsHandler.compatible a,
   DietaryRestrictionsHandler.compatibleOptions a,
   DietaryRestrictionsHandler.incompatibleOptions a).

(** Entry [g] is entry [b] after adjustments that turned nothing off. *)
Definition noTurnOff (b g : DietaryOption) : Prop :=
  type g = type b /\ (available b = true -> available g = true).

End Spec.

(** ** Sample data

    Two cache entries in the shape of the generated files, after the
    examples of ENHANCED_FEATURES.md. *)

Module Samples.
Import EnhancedConciergeAgent.

Definition mario : GeneratedRestaurantData :=
  mkData
    (mkRestaurant "Mario's Italian Bistro" "123 Main Street, New York, NY"
                  4.2%Q 1 ["italian"]
                  [ mkDietaryOption "vegetarian" true
                                    (Some "Multiple vegetarian options available");
                    mkDietaryOption "vegan" false None ])
    ["rating"; "priceLevel"; "cuisine"] 85
    (Some ["Chicken Parmigiana"; "Fettuccine Alfredo"])
    (Some ["takeout available"; "delivery available"])
    true.

Definition bella : GeneratedRestaurantData :=
  mkData
    (mkRestaurant "Bella Vista Italian" "789 Oak Street, Chicago, IL"
                  4.0%Q 2 ["italian"]
                  [ mkDietaryOption "vegetarian" true
                                    (Some "Extensive vegetarian menu") ])
    ["rating"; "priceLevel"; "cuisine"] 85
    (Some ["Margherita Pizza"; "Tiramisu"])
    (Some ["outdoor seating"; "family-friendly"])
    true.

Definition cache : Cache := loadCache [mario; bella].

Definition noFilters : SearchFilters := mkFilters None None None None.

(** The message of the scenario. *)
Definition text : string := "Find cheap vegetarian Italian restaurants".

Definition dragon : Restaurant :=
  Spec.generatedRestaurant "Dragon Palace" "456 Broadway" 4.1%Q.

(** A generated record whose cuisine adjusts the options: the name holds
    the indicator olive, so the cuisine is mediterranean and vegan and
    halal are turned on. *)
Definition olive : Restaurant :=
  Spec.generatedRestaurant "Olive Tree" "12 Garden Heights" 4.3%Q.

(** A file written by hand: its restaurant object has no [dietaryOptions]
    array and the entry has no extended properties. *)
Definition diner : GeneratedRestaurantData :=
  mkData
    (mkRestaurant "Corner Diner" "5 Elm Street" 3.9%Q 1 ["american"] [])
    [] 0 None None false.

Definition cacheWithDiner : Cache := loadCache [mario; bella; diner].

End Samples.

(** ** The generator's result (src/generators/restaurant-generator.ts)

    [generateMockData] builds the restaurant record, then an extended
    object with menu, ambiance, special features and popular dishes, and
    returns the object literal [{restaurant, generatedFields, confidence}]:
    the extended object is not part of what it returns, so the properties
    the agent reads through [data as any] are absent from it. *)

Module MockData.
Import EnhancedConciergeAgent.

Definition generatedFieldNames : list string :=
  [ "rating"; "priceLevel"; "cuisine"; "openingHours"; "reviews";
    "dietaryOptions"; "menuCategories"; "ambiance"; "specialFeatures";
    "popularDishes"; "reservationPolicy"; "parkingInfo" ].

Definition generateMockData (name address : string) (rating : Q)
  : GeneratedRestaurantData :=
  let analysis := RestaurantDataGenerator.analyzeRestaurantName name in
  mkData (Spec.generatedRestaurant name address rating)
         generatedFieldNames
         (RestaurantDataGenerator.confidence analysis)
         None None true.

End MockData.

(** ** Further vocabulary *)

Module Props.
Import DietaryRestrictionsHandler.

(** The cuisine tag has a listed allergen that some user allergy names:
    the test under which [checkAllergyWarnings] warns and takes 10 points. *)
Definition allergyRisk (allergies : list string) (cuisine : string) : bool :=
  match lookup (JS.toLowerCase cuisine) cuisineAllergyRisks with
  | Some risks =>
      existsb (fun risk =>
                 JS.some (fun allergy =>
                            JS.includes (JS.toLowerCase allergy) risk)
                         allergies)
              risks
  | None => false
  end.

(** The score of the full analysis before the final clamp. *)
Definition rawScore (r : Restaurant) (rs : list DietaryRestrictionType)
           (al : list string) : Z :=
  let missing := filter (fun t => negb (optionAvailable r t)) rs in
  100
  - 30 * Z.of_nat (length missing)
  - 20 * Z.of_nat (length (filter isCriticalRestriction missing))
  - 10 * Z.of_nat (length (filter (allergyRisk al) (cuisine r)))
  + (if 5 <? Z.of_nat (length (filter available (dietaryOptions r)))
     then 10 else 0).

(** [sub] is [xs] with some elements left out, the order kept. *)
Inductive Subsequence {A : Type} : list A -> list A -> Prop :=
| sub_nil : Subsequence [] []
| sub_skip x sub xs : Subsequence sub xs -> Subsequence sub (x :: xs)
| sub_keep x sub xs : Subsequence sub xs -> Subsequence (x :: sub) (x :: xs).

(** The twelve restriction tags, in the order of the tables. *)
Definition restrictionTypes : list DietaryRestrictionType :=
  [ "vegetarian"; "vegan"; "gluten-free"; "dairy-free"; "nut-free";
    "shellfish-free"; "halal"; "kosher"; "keto"; "paleo"; "low-carb";
    "diabetic-friendly" ].

(** The ten cuisines of the generator's indicator table. *)
Definition knownCuisines : list string :=
  [ "italian"; "chinese"; "mexican"; "japanese"; "indian"; "thai";
    "french"; "american"; "mediterranean"; "korean" ].

End Props.

(** Case analysis on the condition of the first conditional of the goal. *)
Ltac case_if :=
  match goal with
  | |- context [if ?b then _ else _] =>
      lazymatch b with
      | true => fail
      | false => fail
      | _ => destruct b eqn:?
      end
  end.

(** Case analysis on the scrutinee of the first [match] of the goal. *)
Ltac case_match :=
  match goal with
  | |- context [match ?x with _ => _ end] =>
      lazymatch x with
      | true => fail
      | false => fail
      | Some _ => fail
      | None => fail
      | (_, _) => fail
      | _ => destruct x eqn:?
      end
  end.

(** ** The stable sort *)

Section SortFacts.
Context {A : Type} (cmp : A -> A -> comparison).

Lemma insert_perm (a : A) (xs : list A) :
  Permutation (a :: xs) (JS.insert cmp a xs).
Proof.
  induction xs as [|b xs IH]; simpl.
  - apply Permutation_refl.
  - destruct (JS.notAfter cmp a b).
    + apply Permutation_refl.
    + eapply perm_trans; [apply perm_swap|].
      now apply perm_skip.
Qed.

Lemma sort_perm (xs : list A) : Permutation xs (JS.sort cmp xs).
Proof.
  induction xs as [|a xs IH]; simpl.
  - apply perm_nil.
  - eapply perm_trans; [apply perm_skip, IH|apply insert_perm].
Qed.

Lemma sort_In (x : A) (xs : list A) : In x (JS.sort cmp xs) <-> In x xs.
Proof.
  split; intro H.
  - eapply Permutation_in; [apply Permutation_sym, sort_perm|exact H].
  - eapply Permutation_in; [apply sort_perm|exact H].
Qed.

(** Elements of a class whose members never compare as "after" one
    another keep their relative order. *)
Section Stable.
Variable p : A -> bool.
Hypothesis p_tied :
  forall a b, p a = true -> p b = true -> JS.notAfter cmp a b = true.

Lemma filter_insert (a : A) (xs : list A) :
  filter p (JS.insert cmp a xs) = filter p (a :: xs).
Proof.
  induction xs as [|b xs IH]; [reflexivity|].
  simpl JS.insert.
  destruct (JS.notAfter cmp a b) eqn:Hab; [reflexivity|].
  change (filter p (b :: JS.insert cmp a xs))
    with (if p b then b :: filter p (JS.insert cmp a xs)
          else filter p (JS.insert cmp a xs)).
  rewrite IH. simpl.
  destruct (p a) eqn:Ha, (p b) eqn:Hb; try reflexivity.
  rewrite (p_tied a b Ha Hb) in Hab. discriminate.
Qed.

Lemma sort_stable (xs : list A) :
  filter p (JS.sort cmp xs) = filter p xs.
Proof.
  induction xs as [|a xs IH]; [reflexivity|].
  simpl JS.sort. rewrite filter_insert. simpl. now rewrite IH.
Qed.
End Stable.

(** Under a total and transitive comparator the output is sorted. *)
Section Sorted.
Variable R : A -> A -> Prop.
Hypothesis R_trans : forall a b c, R a b -> R b c -> R a c.
Hypothesis R_yes : forall a b, JS.notAfter cmp a b = true -> R a b.
Hypothesis R_no : forall a b, JS.notAfter cmp a b = false -> R b a.

Lemma insert_sorted (a : A) (xs : list A) :
  StronglySorted R xs -> StronglySorted R (JS.insert cmp a xs).
Proof.
  induction 1 as [|b xs Hs IH Hb]; simpl.
  - constructor; constructor.
  - destruct (JS.notAfter cmp a b) eqn:Hab.
    + constructor; [now constructor|].
      constructor; [now apply R_yes|].
      eapply Forall_impl; [|exact Hb].
      intros c Hc. eapply R_trans; [apply R_yes, Hab|exact Hc].
    + constructor; [exact IH|].
      eapply Permutation_Forall; [apply insert_perm|].
      constructor; [now apply R_no|exact Hb].
Qed.

Lemma sort_sorted (xs : list A) : StronglySorted R (JS.sort cmp xs).
Proof.
  induction xs as [|a xs IH]; simpl.
  - constructor.
  - now apply insert_sorted.
Qed.
End Sorted.
End SortFacts.

(** ** The dietary analyzer *)

Section AnalyzerFacts.
Import DietaryRestrictionsHandler.

Lemma fold_left_frame {X : Type} (f : DietaryAnalysis -> X -> DietaryAnalysis)
      (xs : list X) :
  (forall a x, Spec.verdict (f a x) = Spec.verdict a) ->
  forall a, Spec.verdict (fold_left f xs a) = Spec.verdict a.
Proof.
  intros Hf. induction xs as [|x xs IH]; intro a; simpl; [reflexivity|].
  now rewrite IH, Hf.
Qed.

Lemma conflictStep_frame rs a e : Spec.verdict (conflictStep rs a e) = Spec.verdict a.
Proof.
  destruct e as [primary conflicting]. unfold conflictStep.
  repeat case_if; reflexivity.
Qed.

Lemma cuisineRestrictionStep_frame c tbl a t :
  Spec.verdict (cuisineRestrictionStep c tbl a t) = Spec.verdict a.
Proof.
  unfold cuisineRestrictionStep.
  destruct (lookup t tbl) as [s|]; [|reflexivity].
  repeat case_if; reflexivity.
Qed.

Lemma cuisineStep_frame rs a c : Spec.verdict (cuisineStep rs a c) = Spec.verdict a.
Proof.
  unfold cuisineStep.
  destruct (lookup (JS.toLowerCase c) cuisineCompatibility) as [tbl|];
    [|reflexivity].
  apply fold_left_frame. intros. apply cuisineRestrictionStep_frame.
Qed.

Lemma allergyStep_frame al a c : Spec.verdict (allergyStep al a c) = Spec.verdict a.
Proof.
  unfold allergyStep.
  destruct (lookup (JS.toLowerCase c) cuisineAllergyRisks) as [risks|];
    [|reflexivity].
  case_if; reflexivity.
Qed.

Lemma extensiveBonus_frame r a : Spec.verdict (extensiveBonus r a) = Spec.verdict a.
Proof. unfold extensiveBonus. case_if; reflexivity. Qed.

(** The restriction loop sorts each requested tag into one of the two
    lists and clears [compatible] on an unavailable critical tag. *)
Lemma restriction_loop r rs : forall a,
  Spec.verdict (fold_left (restrictionStep r) rs a) =
  (compatible a &&
     forallb (fun t => optionAvailable r t || negb (isCriticalRestriction t))
             rs,
   (compatibleOptions a ++ filter (optionAvailable r) rs)%list,
   (incompatibleOptions a
      ++ filter (fun t => negb (optionAvailable r t)) rs)%list).
Proof.
  induction rs as [|t rs IH]; intro a; simpl.
  - now rewrite andb_true_r, !app_nil_r.
  - rewrite IH. unfold restrictionStep.
    destruct (optionAvailable r t); simpl.
    + now rewrite <- app_assoc.
    + destruct (isCriticalRestriction t); simpl.
      * now rewrite andb_false_r, <- app_assoc.
      * now rewrite <- app_assoc.
Qed.

(** The Spec.verdict of a whole analysis, on both paths. *)
Lemma analyze_verdict r rs al :
  Spec.verdict (analyzeRestaurantCompatibility r rs al) =
  (forallb (fun t => optionAvailable r t || negb (isCriticalRestriction t)) rs,
   filter (optionAvailable r) rs,
   filter (fun t => negb (optionAvailable r t)) rs).
Proof.
  unfold analyzeRestaurantCompatibility.
  destruct ((length rs =? 0)%nat && (length al =? 0)%nat) eqn:Hfast.
  - apply andb_true_iff in Hfast as [Hrs _].
    apply Nat.eqb_eq in Hrs. destruct rs; [reflexivity|discriminate].
  - unfold clampScore.
    change (Spec.verdict (setScore ?s ?a)) with (Spec.verdict a).
    rewrite extensiveBonus_frame.
    unfold checkAllergyWarnings, analyzeCuisineCompatibility,
      checkConflictingRestrictions.
    rewrite (fold_left_frame _ _ (allergyStep_frame al)).
    rewrite (fold_left_frame _ _ (cuisineStep_frame rs)).
    rewrite (fold_left_frame _ _ (conflictStep_frame rs)).
    now rewrite restriction_loop.
Qed.

(** [optionAvailable] is false when no entry of the tag is available. *)
Lemma optionAvailable_false r t :
  ~ Spec.accommodates r t -> optionAvailable r t = false.
Proof.
  intro Hno. unfold optionAvailable.
  destruct (find _ (dietaryOptions r)) as [opt|] eqn:Hfind; [|reflexivity].
  apply find_some in Hfind as [Hin Heq]. apply String.eqb_eq in Heq.
  destruct (available opt) eqn:Hav; [|reflexivity].
  exfalso. apply Hno. now exists opt.
Qed.

(** A list and its two complementary filters hold the same occurrences. *)
Lemma count_occ_filter_split (ok : string -> bool) (t : string)
      (xs : list string) :
  (count_occ string_dec (filter ok xs) t
   + count_occ string_dec (filter (fun x => negb (ok x)) xs) t
   = count_occ string_dec xs t)%nat.
Proof.
  induction xs as [|x xs IH]; [reflexivity|].
  simpl. destruct (ok x); simpl; destruct (string_dec x t); simpl; lia.
Qed.

Lemma isCritical_criticalSet t :
  In t Spec.criticalSet -> isCriticalRestriction t = true.
Proof.
  intro H. unfold isCriticalRestriction, JS.arrayIncludes.
  apply existsb_exists. exists t. split; [exact H|apply String.eqb_refl].
Qed.
End AnalyzerFacts.

(** C2: when a requested restriction of the critical set {vegan,
    gluten-free, nut-free, shellfish-free, halal, kosher} has no
    accommodation entry with [available = true] on the restaurant, the
    analysis returned by [analyzeRestaurantCompatibility] has
    [compatible = false] and lists that tag in [incompatibleOptions]. *)
Theorem critical_unavailable_incompatible
        (r : Restaurant) (restrictions : list DietaryRestrictionType)
        (allergies : list string) (t : DietaryRestrictionType) :
  In t restrictions ->
  In t Spec.criticalSet ->
  ~ Spec.accommodates r t ->
  let analysis :=
    DietaryRestrictionsHandler.analyzeRestaurantCompatibility
      r restrictions allergies in
  DietaryRestrictionsHandler.compatible analysis = false /\
  In t (DietaryRestrictionsHandler.incompatibleOptions analysis).
Proof.
  intros Hreq Hcrit Hno analysis.
  pose proof (analyze_verdict r restrictions allergies) as Hv.
  fold analysis in Hv. unfold Spec.verdict in Hv.
  injection Hv as Hc _ Hi.
  pose proof (optionAvailable_false r t Hno) as Hav.
  split.
  - rewrite Hc. apply not_true_is_false. intro Hall.
    rewrite forallb_forall in Hall. specialize (Hall t Hreq).
    rewrite Hav, (isCritical_criticalSet t Hcrit) in Hall. discriminate.
  - rewrite Hi. apply filter_In. split; [exact Hreq|now rewrite Hav].
Qed.

(** C3: the score of the analysis returned by
    [analyzeRestaurantCompatibility] lies in [0, 100], on the fast path of
    empty inputs as on the full path. *)
Theorem score_in_range
        (r : Restaurant) (restrictions : list DietaryRestrictionType)
        (allergies : list string) :
  0 <= DietaryRestrictionsHandler.score
         (DietaryRestrictionsHandler.analyzeRestaurantCompatibility
            r restrictions allergies) <= 100.
Proof.
  unfold DietaryRestrictionsHandler.analyzeRestaurantCompatibility.
  destruct ((length restrictions =? 0)%nat && (length allergies =? 0)%nat).
  - simpl. lia.
  - unfold DietaryRestrictionsHandler.clampScore. simpl. lia.
Qed.

(** C9: [compatibleOptions] and [incompatibleOptions] partition the
    requested restrictions.  Each list is the requested list filtered by a
    test on the tag (so it keeps the request order and holds requested tags
    only), the two tests are complementary (no tag is in both lists), and
    every requested occurrence is counted in exactly one of them. *)
Theorem options_partition_request
        (r : Restaurant) (restrictions : list DietaryRestrictionType)
        (allergies : list string) :
  let analysis :=
    DietaryRestrictionsHandler.analyzeRestaurantCompatibility
      r restrictions allergies in
  let ok := DietaryRestrictionsHandler.optionAvailable r in
  DietaryRestrictionsHandler.compatibleOptions analysis
    = filter ok restrictions /\
  DietaryRestrictionsHandler.incompatibleOptions analysis
    = filter (fun t => negb (ok t)) restrictions /\
  (forall t,
      ~ (In t (DietaryRestrictionsHandler.compatibleOptions analysis) /\
         In t (DietaryRestrictionsHandler.incompatibleOptions analysis))) /\
  (forall t,
      (count_occ string_dec
                 (DietaryRestrictionsHandler.compatibleOptions analysis) t
       + count_occ string_dec
                   (DietaryRestrictionsHandler.incompatibleOptions analysis) t
       = count_occ string_dec restrictions t)%nat).
Proof.
  intros analysis ok.
  pose proof (analyze_verdict r restrictions allergies) as Hv.
  fold analysis in Hv. unfold Spec.verdict in Hv.
  injection Hv as _ Hc Hi. fold ok in Hc, Hi.
  rewrite Hc, Hi. repeat split.
  - intros t [H1 H2]. apply filter_In in H1 as [_ H1].
    apply filter_In in H2 as [_ H2]. rewrite H1 in H2. discriminate.
  - intro t. apply count_occ_filter_split.
Qed.

(** ** The search loop *)

Section SearchFacts.
Import EnhancedConciergeAgent.

Lemma arrayIncludes_In (xs : list string) (x : string) :
  JS.arrayIncludes xs x = true <-> In x xs.
Proof.
  unfold JS.arrayIncludes. rewrite existsb_exists. split.
  - intros [y [Hin Heq]]. apply String.eqb_eq in Heq. now subst.
  - intro Hin. exists x. split; [exact Hin|apply String.eqb_refl].
Qed.

Lemma truthyStr_Some (s : string) :
  JS.truthyStr (Some s) = true <-> s <> "".
Proof.
  simpl. rewrite negb_true_iff. split.
  - intros H ->. discriminate.
  - intro H. destruct (String.eqb_spec s ""); [contradiction|reflexivity].
Qed.

Lemma truthyNum_Some (n : Z) : JS.truthyNum (Some n) = true <-> n <> 0.
Proof.
  simpl. rewrite negb_true_iff. split.
  - intros H ->. discriminate.
  - intro H. now apply Z.eqb_neq.
Qed.

Lemma hasDietary_accommodates (r : Restaurant) (d : string) :
  hasDietary r d = true <-> Spec.accommodates r d.
Proof.
  unfold hasDietary, JS.some, Spec.accommodates. rewrite existsb_exists.
  split; intros [opt [Hin H]]; exists opt.
  - apply andb_true_iff in H as [Ht Ha]. apply String.eqb_eq in Ht. auto.
  - destruct H as [Ht Ha]. split; [exact Hin|].
    rewrite Ht, String.eqb_refl. exact Ha.
Qed.

(** The keyword stage either matched, with at least the smallest
    increment, or left the state untouched. *)
Lemma keywordStage_cases (ql k : string) (d : GeneratedRestaurantData) :
  let st := keywordStage ql k d in
  (fst st = true /\ 4 <= snd st) \/ st = (false, 0).
Proof.
  unfold keywordStage. repeat case_if; simpl; (left; split; [reflexivity|lia])
    || (right; reflexivity).
Qed.

Lemma keywordStage_zero (ql k : string) (d : GeneratedRestaurantData) :
  snd (keywordStage ql k d) = 0 -> fst (keywordStage ql k d) = false.
Proof.
  destruct (keywordStage_cases ql k d) as [[_ H]|H]; [lia|].
  intros _. now rewrite H.
Qed.

(** Each filter can only clear [matches]; passing it means its test held. *)
Lemma cuisineFilter_pass filters r st :
  fst (cuisineFilter filters r st) = true ->
  fst st = true /\ snd (cuisineFilter filters r st) = snd st /\
  (forall c, f_cuisine filters = Some c -> c <> "" ->
             In (JS.toLowerCase c) (cuisine r)).
Proof.
  unfold cuisineFilter. destruct (f_cuisine filters) as [c|].
  - case_if; simpl; [discriminate|]. intro Hm. repeat split; [exact Hm|].
    intros c' [= <-] Hc. apply truthyStr_Some in Hc.
    rewrite Hc in Heqb. simpl in Heqb. apply negb_false_iff in Heqb.
    now apply arrayIncludes_In.
  - intro Hm. repeat split; [exact Hm|]. discriminate.
Qed.

Lemma priceFilter_pass filters r st :
  fst (priceFilter filters r st) = true ->
  fst st = true /\ snd (priceFilter filters r st) = snd st /\
  (forall p, f_priceLevel filters = Some p -> p <> 0 -> priceLevel r = p).
Proof.
  unfold priceFilter. destruct (f_priceLevel filters) as [p|].
  - case_if; simpl; [discriminate|]. intro Hm. repeat split; [exact Hm|].
    intros p' [= <-] Hp. apply truthyNum_Some in Hp.
    rewrite Hp in Heqb. simpl in Heqb. apply negb_false_iff in Heqb.
    now apply Z.eqb_eq.
  - intro Hm. repeat split; [exact Hm|]. discriminate.
Qed.

Lemma dietaryFilter_pass filters data st :
  fst (dietaryFilter filters data st) = true ->
  fst st = true /\ snd st <= snd (dietaryFilter filters data st) /\
  (forall d, f_dietary filters = Some d -> d <> "" ->
             dietaryOptionsPresent data = true ->
             Spec.accommodates (restaurant data) d).
Proof.
  unfold dietaryFilter. destruct (f_dietary filters) as [d|].
  - destruct (JS.truthyStr (Some d) && dietaryOptionsPresent data) eqn:Ht.
    + destruct (hasDietary (restaurant data) d) eqn:Hd; simpl; [|discriminate].
      intro Hm. repeat split; [exact Hm|lia|].
      intros d' [= <-] _ _. now apply hasDietary_accommodates.
    + intro Hm. repeat split; [exact Hm|lia|].
      intros d' [= <-] Hne Hpres. apply truthyStr_Some in Hne.
      rewrite Hne, Hpres in Ht. discriminate.
  - intro Hm. repeat split; [exact Hm|lia|]. discriminate.
Qed.

Lemma amenityFilter_pass filters d st :
  fst (amenityFilter filters d st) = true ->
  fst st = true /\ snd st <= snd (amenityFilter filters d st).
Proof.
  unfold amenityFilter.
  destruct (f_amenity filters) as [a|]; [|intro; split; [assumption|lia]].
  destruct (specialFeatures d) as [fs|]; [|intro; split; [assumption|lia]].
  destruct (JS.truthyStr (Some a)); [|intro; split; [assumption|lia]].
  destruct (hasAmenity fs a); simpl; [|discriminate].
  intro; split; [assumption|lia].
Qed.

(** An entry that leaves the filter stage with [matches] set had it set
    by the keyword stage and satisfies the three hard filters. *)
Lemma filterStage_pass filters d st :
  fst (filterStage filters d st) = true ->
  fst st = true /\ snd st <= snd (filterStage filters d st) /\
  (forall c, f_cuisine filters = Some c -> c <> "" ->
             In (JS.toLowerCase c) (cuisine (restaurant d))) /\
  (forall p, f_priceLevel filters = Some p -> p <> 0 ->
             priceLevel (restaurant d) = p) /\
  (forall t, f_dietary filters = Some t -> t <> "" ->
             dietaryOptionsPresent d = true ->
             Spec.accommodates (restaurant d) t).
Proof.
  unfold filterStage. destruct (fst st) eqn:Hst.
  - intro H.
    apply amenityFilter_pass in H as [H Ha].
    apply dietaryFilter_pass in H as [H [Hd Hdiet]].
    apply priceFilter_pass in H as [H [Hp Hprice]].
    apply cuisineFilter_pass in H as [_ [Hc Hcuis]].
    repeat split; try assumption. lia.
  - rewrite Hst. discriminate.
Qed.

Lemma searchStep_app ql filters results entry :
  searchStep ql filters results entry
  = (results ++ Spec.entryResult ql filters entry)%list.
Proof.
  unfold Spec.entryResult, searchStep. destruct entry as [k d].
  case_if; [reflexivity|now rewrite app_nil_r].
Qed.

(** The loop concatenates the contributions of the entries, in cache
    order. *)
Lemma collectResults_flat_map cache query filters :
  collectResults cache query filters
  = flat_map (Spec.entryResult (JS.toLowerCase query) filters) cache.
Proof.
  unfold collectResults.
  enough (H : forall acc,
             fold_left (searchStep (JS.toLowerCase query) filters) cache acc
             = (acc ++ flat_map (Spec.entryResult (JS.toLowerCase query)
                                                  filters) cache)%list)
    by apply (H []).
  induction cache as [|e cache IH]; intro acc; simpl.
  - now rewrite app_nil_r.
  - now rewrite IH, searchStep_app, <- app_assoc.
Qed.

Lemma In_entryResult ql filters k d x :
  In x (Spec.entryResult ql filters (k, d)) <->
  fst (filterStage filters d (keywordStage ql k d)) = true /\
  x = mkResult d (snd (filterStage filters d (keywordStage ql k d))).
Proof.
  unfold Spec.entryResult, searchStep.
  destruct (fst (filterStage filters d (keywordStage ql k d))); simpl.
  - split; [intros [<-|[]]; auto|intros [_ ->]; auto].
  - split; [intros []|intros [H _]; discriminate].
Qed.

(** Every result comes from a cache entry that passed both stages. *)
Lemma In_searchRestaurants cache query filters x :
  In x (searchRestaurants cache query filters) <->
  exists k,
    In (k, data x) cache /\
    fst (filterStage filters (data x)
                     (keywordStage (JS.toLowerCase query) k (data x))) = true /\
    searchScore x
    = snd (filterStage filters (data x)
                       (keywordStage (JS.toLowerCase query) k (data x))).
Proof.
  unfold searchRestaurants.
  rewrite sort_In, collectResults_flat_map, in_flat_map. split.
  - intros [[k d] [Hin Hx]]. apply In_entryResult in Hx as [Hm ->].
    exists k. simpl. auto.
  - intros [k [Hin [Hm Hs]]]. exists (k, data x). split; [exact Hin|].
    apply In_entryResult. split; [exact Hm|].
    destruct x as [d s]. simpl in *. now rewrite Hs.
Qed.

(** The comparator against the ranking relation. *)
Lemma notAfter_rankedBefore a b :
  JS.notAfter compareResults a b = true -> Spec.rankedBefore a b.
Proof.
  unfold JS.notAfter, compareResults, Spec.rankedBefore.
  destruct (Z.eqb_spec (searchScore a) (searchScore b)) as [He|Hne]; simpl.
  - intro H. right. split; [exact He|].
    apply Qle_alt. intro Hgt. now rewrite Hgt in H.
  - destruct (Z.compare_spec (searchScore b) (searchScore a));
      intro; try discriminate; left; lia.
Qed.

Lemma after_rankedBefore a b :
  JS.notAfter compareResults a b = false -> Spec.rankedBefore b a.
Proof.
  unfold JS.notAfter, compareResults, Spec.rankedBefore.
  destruct (Z.eqb_spec (searchScore a) (searchScore b)) as [He|Hne]; simpl.
  - destruct (_ ?= _)%Q eqn:Hc; intro; try discriminate.
    right. split; [now symmetry|].
    apply Qlt_le_weak. now apply Qgt_alt.
  - destruct (Z.compare_spec (searchScore b) (searchScore a));
      intro; try discriminate; left; lia.
Qed.

Lemma rankedBefore_trans a b c :
  Spec.rankedBefore a b -> Spec.rankedBefore b c -> Spec.rankedBefore a c.
Proof.
  unfold Spec.rankedBefore.
  intros [H1|[H1 Q1]] [H2|[H2 Q2]]; try (left; lia).
  right. split; [lia|]. eapply Qle_trans; eassumption.
Qed.

Lemma sameRank_tied s q a b :
  Spec.sameRank s q a = true -> Spec.sameRank s q b = true ->
  JS.notAfter compareResults a b = true.
Proof.
  unfold Spec.sameRank, JS.notAfter, compareResults.
  intros Ha Hb.
  apply andb_true_iff in Ha as [Ha Hqa], Hb as [Hb Hqb].
  apply Z.eqb_eq in Ha, Hb. apply Qeq_bool_iff in Hqa, Hqb.
  replace (searchScore a =? searchScore b) with true
    by (symmetry; apply Z.eqb_eq; lia).
  simpl.
  assert (Heq : (rating (restaurant (data b))
                 ?= rating (restaurant (data a)))%Q = Eq).
  { apply Qeq_alt. now rewrite Hqa, Hqb. }
  now rewrite Heq.
Qed.
End SearchFacts.

(** C1, as the code has it: every result of [searchRestaurants] satisfies
    the requested hard filters the way the code tests them.  If the cuisine
    filter is a non-empty string, the restaurant's cuisine tags contain its
    lower-cased form; if the price filter is a non-zero number, the
    restaurant's price tier equals it; if the dietary filter is a non-empty
    string and the restaurant record carries a [dietaryOptions] array, the
    array has an entry for that tag with [available = true]. *)
Theorem results_satisfy_hard_filters
        (cache : EnhancedConciergeAgent.Cache) (query : string)
        (filters : EnhancedConciergeAgent.SearchFilters)
        (x : EnhancedConciergeAgent.SearchResult) :
  In x (EnhancedConciergeAgent.searchRestaurants cache query filters) ->
  let d := EnhancedConciergeAgent.data x in
  let r := EnhancedConciergeAgent.restaurant d in
  (forall c, EnhancedConciergeAgent.f_cuisine filters = Some c -> c <> "" ->
             In (JS.toLowerCase c) (cuisine r)) /\
  (forall p, EnhancedConciergeAgent.f_priceLevel filters = Some p -> p <> 0 ->
             priceLevel r = p) /\
  (forall t, EnhancedConciergeAgent.f_dietary filters = Some t -> t <> "" ->
             EnhancedConciergeAgent.dietaryOptionsPresent d = true ->
             Spec.accommodates r t).
Proof.
  intros Hin d r. apply In_searchRestaurants in Hin as [k [_ [Hm _]]].
  apply filterStage_pass in Hm as [_ [_ H]]. exact H.
Qed.

(** C6: the list returned by [searchRestaurants] is sorted by score,
    highest first, equal scores by rating, highest first; and the results
    that agree in score and in rating stand in the order of the cache
    entries they come from. *)
Theorem results_ranked
        (cache : EnhancedConciergeAgent.Cache) (query : string)
        (filters : EnhancedConciergeAgent.SearchFilters) :
  let results := EnhancedConciergeAgent.searchRestaurants cache query filters in
  StronglySorted Spec.rankedBefore results /\
  (forall s q,
      filter (Spec.sameRank s q) results
      = filter (Spec.sameRank s q)
               (flat_map (Spec.entryResult (JS.toLowerCase query) filters)
                         cache)).
Proof.
  intro results. subst results. unfold EnhancedConciergeAgent.searchRestaurants.
  split.
  - apply sort_sorted.
    + exact rankedBefore_trans.
    + exact notAfter_rankedBefore.
    + exact after_rankedBefore.
  - intros s q. rewrite <- collectResults_flat_map.
    apply sort_stable. exact (sameRank_tied s q).
Qed.

(** ** Acceptance by the filter stage, and the amenity filter *)

Section FilterFacts.
Import EnhancedConciergeAgent.

(** An entry the keyword stage matched passes the filter stage when every
    requested filter holds; its score does not decrease. *)
Lemma filterStage_accept filters d st :
  fst st = true ->
  (forall c, f_cuisine filters = Some c -> c <> "" ->
             In (JS.toLowerCase c) (cuisine (restaurant d))) ->
  (forall p, f_priceLevel filters = Some p -> p <> 0 ->
             priceLevel (restaurant d) = p) ->
  (forall t, f_dietary filters = Some t -> t <> "" ->
             dietaryOptionsPresent d = true ->
             Spec.accommodates (restaurant d) t) ->
  (forall a fs, f_amenity filters = Some a -> a <> "" ->
                specialFeatures d = Some fs -> hasAmenity fs a = true) ->
  fst (filterStage filters d st) = true /\
  snd st <= snd (filterStage filters d st).
Proof.
  intros Hst Hc Hp Hd Ha. unfold filterStage. rewrite Hst.
  assert (H1 : cuisineFilter filters (restaurant d) st = st).
  { unfold cuisineFilter. destruct (f_cuisine filters) as [c|]; [|reflexivity].
    destruct (JS.truthyStr (Some c)) eqn:Ht; [|reflexivity].
    apply truthyStr_Some in Ht.
    apply (Hc c eq_refl), arrayIncludes_In in Ht. now rewrite Ht. }
  rewrite H1.
  assert (H2 : priceFilter filters (restaurant d) st = st).
  { unfold priceFilter. destruct (f_priceLevel filters) as [p|]; [|reflexivity].
    destruct (JS.truthyNum (Some p)) eqn:Ht; [|reflexivity].
    apply truthyNum_Some in Ht. rewrite (Hp p eq_refl Ht), Z.eqb_refl.
    reflexivity. }
  rewrite H2.
  set (st1 := dietaryFilter filters d st).
  assert (H3 : fst st1 = true /\ snd st <= snd st1).
  { subst st1. unfold dietaryFilter.
    destruct (f_dietary filters) as [t|]; [|split; [assumption|lia]].
    destruct (JS.truthyStr (Some t) && dietaryOptionsPresent d) eqn:Hg;
      [|split; [assumption|lia]].
    apply andb_true_iff in Hg as [Ht Hpres].
    apply truthyStr_Some in Ht.
    apply (Hd t eq_refl) in Ht; [|exact Hpres].
    apply hasDietary_accommodates in Ht. rewrite Ht.
    simpl. split; [assumption|lia]. }
  destruct H3 as [H3 H3'].
  unfold amenityFilter.
  destruct (f_amenity filters) as [a|]; [|split; [assumption|lia]].
  destruct (specialFeatures d) as [fs|]; [|split; [assumption|lia]].
  destruct (JS.truthyStr (Some a)) eqn:Ht; [|split; [assumption|lia]].
  apply truthyStr_Some in Ht. rewrite (Ha a fs eq_refl Ht eq_refl).
  simpl. split; [assumption|lia].
Qed.

(** A cuisine hit alone makes the keyword stage match, with 8 points. *)
Lemma keywordStage_cuisine ql k d :
  JS.some (fun cuisine =>
             JS.includes ql cuisine
             || JS.includes cuisine (JS.firstWord ql))
          (cuisine (restaurant d)) = true ->
  fst (keywordStage ql k d) = true /\ 8 <= snd (keywordStage ql k d).
Proof.
  intro H. unfold keywordStage. rewrite H.
  repeat case_if; simpl; split; reflexivity || lia.
Qed.

(** With the other filters unchanged, a requested amenity acts on each
    entry's contribution as [amenityEffect] says. *)
Lemma entryResult_withAmenity ql filters a entry :
  f_amenity filters = None -> a <> "" ->
  Spec.entryResult ql (Spec.withAmenity filters a) entry
  = flat_map (Spec.amenityEffect a) (Spec.entryResult ql filters entry).
Proof.
  intros Hnone Ha. destruct entry as [k d].
  unfold Spec.entryResult, searchStep, filterStage.
  destruct (fst (keywordStage ql k d)) eqn:Hk.
  - change (cuisineFilter (Spec.withAmenity filters a))
      with (cuisineFilter filters).
    change (priceFilter (Spec.withAmenity filters a))
      with (priceFilter filters).
    change (dietaryFilter (Spec.withAmenity filters a))
      with (dietaryFilter filters).
    set (st1 := dietaryFilter filters d
                  (priceFilter filters (restaurant d)
                     (cuisineFilter filters (restaurant d)
                        (keywordStage ql k d)))).
    unfold amenityFilter, Spec.withAmenity. cbn [f_amenity]. rewrite Hnone.
    apply truthyStr_Some in Ha. rewrite Ha.
    unfold Spec.amenityEffect.
    destruct (specialFeatures d) as [fs|] eqn:Hfs.
    + destruct (hasAmenity fs a) eqn:Hhas; simpl;
        destruct (fst st1); simpl; rewrite ?Hfs, ?Hhas; reflexivity.
    + destruct (fst st1); simpl; rewrite ?Hfs; reflexivity.
  - rewrite Hk. reflexivity.
Qed.

Lemma flat_map_flat_map {X Y W : Type} (f : X -> list Y) (g : Y -> list W)
      (xs : list X) :
  flat_map g (flat_map f xs) = flat_map (fun x => flat_map g (f x)) xs.
Proof.
  induction xs as [|x xs IH]; [reflexivity|].
  simpl. now rewrite flat_map_app, IH.
Qed.

Lemma collectResults_withAmenity cache query filters a :
  f_amenity filters = None -> a <> "" ->
  collectResults cache query (Spec.withAmenity filters a)
  = flat_map (Spec.amenityEffect a) (collectResults cache query filters).
Proof.
  intros Hnone Ha. rewrite !collectResults_flat_map, flat_map_flat_map.
  apply flat_map_ext. intro e. now apply entryResult_withAmenity.
Qed.
End FilterFacts.

(** C4, as the code has it: a restaurant is in the result only when the
    keyword stage matched it (by name, cuisine, dish or feature), whatever
    the filters; its keyword score is then at least 4 and its final score is
    no lower.  A restaurant with keyword score 0 is never retained, a
    price-only request included. *)
Theorem results_matched_a_keyword
        (cache : EnhancedConciergeAgent.Cache) (query : string)
        (filters : EnhancedConciergeAgent.SearchFilters)
        (x : EnhancedConciergeAgent.SearchResult) :
  In x (EnhancedConciergeAgent.searchRestaurants cache query filters) ->
  exists k,
    In (k, EnhancedConciergeAgent.data x) cache /\
    let st := EnhancedConciergeAgent.keywordStage
                (JS.toLowerCase query) k (EnhancedConciergeAgent.data x) in
    fst st = true /\ 4 <= snd st <= EnhancedConciergeAgent.searchScore x.
Proof.
  intro Hin. apply In_searchRestaurants in Hin as [k [Hin [Hm Hs]]].
  exists k. split; [exact Hin|]. intro st.
  apply filterStage_pass in Hm as [Hk [Hle _]]. fold st in Hk, Hle, Hs.
  split; [exact Hk|].
  destruct (keywordStage_cases (JS.toLowerCase query) k
                               (EnhancedConciergeAgent.data x)) as [[_ H4]|H0].
  - fold st in H4. lia.
  - fold st in H0. rewrite H0 in Hk. discriminate.
Qed.

(** C5, as the code has it: with the other filters unchanged, requesting a
    non-empty amenity keeps a result obtained without it unchanged when the
    restaurant has no feature list, keeps it with 3 more points when a
    feature contains the amenity, and drops it when the feature list has no
    such feature; it adds no result. *)
Theorem amenity_filter_effect
        (cache : EnhancedConciergeAgent.Cache) (query : string)
        (filters : EnhancedConciergeAgent.SearchFilters) (a : string)
        (y : EnhancedConciergeAgent.SearchResult) :
  EnhancedConciergeAgent.f_amenity filters = None ->
  a <> "" ->
  In y (EnhancedConciergeAgent.searchRestaurants
          cache query (Spec.withAmenity filters a)) <->
  exists x,
    In x (EnhancedConciergeAgent.searchRestaurants cache query filters) /\
    In y (Spec.amenityEffect a x).
Proof.
  intros Hnone Ha. unfold EnhancedConciergeAgent.searchRestaurants.
  rewrite sort_In, (collectResults_withAmenity _ _ _ _ Hnone Ha), in_flat_map.
  split; intros [x [Hx Hy]]; exists x; (split; [|exact Hy]);
    now apply (sort_In EnhancedConciergeAgent.compareResults).
Qed.

(** C7: the filters extracted from the text are cuisine italian, dietary
    vegetarian, price level 1 and no amenity; and whenever the cache holds a
    restaurant named Mario's Italian Bistro with cuisine [italian], price
    level 1 and an available vegetarian option, the search for that text
    with those filters returns it with a positive score. *)
Theorem mario_scenario :
  let text := "Find cheap vegetarian Italian restaurants" in
  EnhancedConciergeAgent.extractSearchFilters text
  = EnhancedConciergeAgent.mkFilters
      (Some "italian") (Some 1) (Some "vegetarian") None /\
  forall (cache : EnhancedConciergeAgent.Cache) (k : string)
         (d : EnhancedConciergeAgent.GeneratedRestaurantData),
    In (k, d) cache ->
    name (EnhancedConciergeAgent.restaurant d) = "Mario's Italian Bistro" ->
    cuisine (EnhancedConciergeAgent.restaurant d) = ["italian"] ->
    priceLevel (EnhancedConciergeAgent.restaurant d) = 1 ->
    Spec.accommodates (EnhancedConciergeAgent.restaurant d) "vegetarian" ->
    exists x,
      In x (EnhancedConciergeAgent.searchRestaurants
              cache text (EnhancedConciergeAgent.extractSearchFilters text)) /\
      EnhancedConciergeAgent.data x = d /\
      0 < EnhancedConciergeAgent.searchScore x.
Proof.
  intro text.
  assert (Hf : EnhancedConciergeAgent.extractSearchFilters text
               = EnhancedConciergeAgent.mkFilters
                   (Some "italian") (Some 1) (Some "vegetarian") None)
    by (vm_compute; reflexivity).
  split; [exact Hf|].
  intros cache k d Hin _ Hcuisine Hprice Hveg. rewrite Hf.
  set (filters := EnhancedConciergeAgent.mkFilters _ _ _ _).
  set (ql := JS.toLowerCase text).
  assert (Hk : fst (EnhancedConciergeAgent.keywordStage ql k d) = true /\
               8 <= snd (EnhancedConciergeAgent.keywordStage ql k d)).
  { apply keywordStage_cuisine. rewrite Hcuisine. vm_compute. reflexivity. }
  destruct Hk as [Hk H8].
  destruct (filterStage_accept filters d
              (EnhancedConciergeAgent.keywordStage ql k d) Hk) as [Hm Hle].
  - intros c [= <-] _. rewrite Hcuisine. vm_compute. auto.
  - intros p [= <-] _. exact Hprice.
  - intros t [= <-] _ _. exact Hveg.
  - intros a fs [=].
  - exists (EnhancedConciergeAgent.mkResult d
              (snd (EnhancedConciergeAgent.filterStage filters d
                      (EnhancedConciergeAgent.keywordStage ql k d)))).
    split; [|split; [reflexivity|simpl; lia]].
    apply In_searchRestaurants. exists k. simpl. auto.
Qed.

(** C1, the claim as stated fails, on a cache that holds the two sample
    restaurants and a file whose restaurant object has no [dietaryOptions]
    array.  The query "mario" with the cuisine filter "ITALIAN" returns
    Mario's, whose cuisine tags do not contain "ITALIAN"; with the price
    filter 0 it returns Mario's, whose price level is 1; with the cuisine
    filter or the dietary filter set to the empty string it returns
    Mario's, which has no such tag and no such entry; and the message
    "find corner diner vegan", which sets the dietary filter vegan,
    returns the diner, which has no vegan entry. *)
Lemma hard_filters_as_worded_fail :
  (In (EnhancedConciergeAgent.mkResult Samples.mario 10)
      (EnhancedConciergeAgent.searchRestaurants
         Samples.cacheWithDiner "mario"
         (EnhancedConciergeAgent.mkFilters (Some "ITALIAN") None None None)) /\
   ~ In "ITALIAN" (cuisine (EnhancedConciergeAgent.restaurant Samples.mario))) /\
  (In (EnhancedConciergeAgent.mkResult Samples.mario 10)
      (EnhancedConciergeAgent.searchRestaurants
         Samples.cacheWithDiner "mario"
         (EnhancedConciergeAgent.mkFilters None (Some 0) None None)) /\
   priceLevel (EnhancedConciergeAgent.restaurant Samples.mario) <> 0) /\
  (In (EnhancedConciergeAgent.mkResult Samples.mario 10)
      (EnhancedConciergeAgent.searchRestaurants
         Samples.cacheWithDiner "mario"
         (EnhancedConciergeAgent.mkFilters (Some "") None (Some "") None)) /\
   ~ In "" (cuisine (EnhancedConciergeAgent.restaurant Samples.mario)) /\
   ~ Spec.accommodates (EnhancedConciergeAgent.restaurant Samples.mario) "") /\
  (EnhancedConciergeAgent.extractSearchFilters "find corner diner vegan"
   = EnhancedConciergeAgent.mkFilters None None (Some "vegan") None /\
   EnhancedConciergeAgent.handleRestaurantSearch
     Samples.cacheWithDiner "find corner diner vegan"
   = [EnhancedConciergeAgent.mkResult Samples.diner 10] /\
   EnhancedConciergeAgent.dietaryOptionsPresent Samples.diner = false /\
   ~ Spec.accommodates (EnhancedConciergeAgent.restaurant Samples.diner)
       "vegan").
Proof.
  assert (Hno : forall t,
             ~ Spec.accommodates
                 (EnhancedConciergeAgent.restaurant Samples.diner) t)
    by (intros t [opt [[] _]]).
  repeat split;
    try (vm_compute; tauto);
    try (simpl; intuition discriminate);
    try apply Hno.
  intros [opt [Hin [Hty _]]]. simpl in Hin.
  destruct Hin as [<-|[<-|[]]]; discriminate.
Qed.

(** C4, the claim as stated fails: no cache keyed by restaurant name holds
    a restaurant that matches the requested price tier, gets keyword score
    0 from the query, and is retained by a search whose only filter is the
    price level. *)
Lemma price_only_zero_score_not_retained :
  ~ (exists (cache : EnhancedConciergeAgent.Cache) (query : string) (p : Z)
            (k : string) (d : EnhancedConciergeAgent.GeneratedRestaurantData),
        Spec.keyedByName cache /\
        In (k, d) cache /\
        priceLevel (EnhancedConciergeAgent.restaurant d) = p /\
        snd (EnhancedConciergeAgent.keywordStage (JS.toLowerCase query) k d)
        = 0 /\
        exists x,
          In x (EnhancedConciergeAgent.searchRestaurants
                  cache query
                  (EnhancedConciergeAgent.mkFilters None (Some p) None None)) /\
          EnhancedConciergeAgent.data x = d).
Proof.
  intros (cache & query & p & k & d & Hkeyed & Hin & _ & Hzero & x & Hx & Hd).
  apply In_searchRestaurants in Hx as [k' [Hin' [Hm _]]].
  rewrite Hd in Hin', Hm.
  rewrite (Hkeyed _ _ Hin') in Hm. rewrite (Hkeyed _ _ Hin) in Hzero.
  apply filterStage_pass in Hm as [Hk _].
  apply keywordStage_zero in Hzero. congruence.
Qed.

(** The situation of C4 on the sample cache: the query "cheap" with price
    level 1 as its only filter.  Mario's has price level 1 and no keyword of
    the query matches it; the search returns nothing. *)
Example price_only_query_on_samples :
  Spec.keyedByName Samples.cache /\
  In ("mario's italian bistro", Samples.mario) Samples.cache /\
  priceLevel (EnhancedConciergeAgent.restaurant Samples.mario) = 1 /\
  EnhancedConciergeAgent.keywordStage
    (JS.toLowerCase "cheap") "mario's italian bistro" Samples.mario
  = (false, 0) /\
  EnhancedConciergeAgent.searchRestaurants
    Samples.cache "cheap"
    (EnhancedConciergeAgent.mkFilters None (Some 1) None None)
  = [].
Proof.
  split; [|repeat split; vm_compute; auto].
  intros k d Hin. vm_compute in Hin.
  destruct Hin as [[= <- <-]|[[= <- <-]|[]]]; reflexivity.
Qed.

(** C5, the claim as stated fails: for the query "italian" both sample
    restaurants are returned when no filter is set, and requesting the
    amenity outdoor_seating drops the one whose features lack it. *)
Lemma amenity_mismatch_excludes :
  EnhancedConciergeAgent.searchRestaurants
    Samples.cache "italian" Samples.noFilters
  = [ EnhancedConciergeAgent.mkResult Samples.mario 18;
      EnhancedConciergeAgent.mkResult Samples.bella 18 ] /\
  EnhancedConciergeAgent.searchRestaurants
    Samples.cache "italian"
    (Spec.withAmenity Samples.noFilters "outdoor_seating")
  = [ EnhancedConciergeAgent.mkResult Samples.bella 21 ].
Proof. split; vm_compute; reflexivity. Qed.

(** C8: for the name Dragon Palace the inferred cuisines are exactly
    [chinese]: the name holds the indicator dragon, chinese is the first
    entry of the table with a matching indicator, and the later entries
    mexican and french match as well; for the address 456 Broadway the
    price multiplier is 1.3 and the style urban, and no upscale indicator
    occurs in the address. *)
Theorem dragon_palace_inference :
  let nameLower := JS.toLowerCase "Dragon Palace" in
  let addressLower := JS.toLowerCase "456 Broadway" in
  let analysis := RestaurantDataGenerator.analyzeRestaurantName "Dragon Palace" in
  let location := RestaurantDataGenerator.analyzeLocation "456 Broadway" in
  RestaurantDataGenerator.cuisines analysis = ["chinese"] /\
  JS.includes nameLower "dragon" = true /\
  map fst
      (filter (fun e => RestaurantDataGenerator.indicatorsMatch nameLower (snd e))
              RestaurantDataGenerator.cuisineIndicators)
  = ["chinese"; "mexican"; "french"] /\
  RestaurantDataGenerator.priceMultiplier location = 1.3%Q /\
  RestaurantDataGenerator.locationStyle location = "urban" /\
  JS.includes addressLower "broadway" = true /\
  RestaurantDataGenerator.indicatorsMatch
    addressLower RestaurantDataGenerator.upscaleIndicators = false.
Proof. repeat split; vm_compute; reflexivity. Qed.

(** ** The generated dietary options *)

Section GeneratorFacts.
Import RestaurantDataGenerator.

Lemma noTurnOff_refl (xs : list DietaryOption) : Forall2 Spec.noTurnOff xs xs.
Proof. induction xs; constructor; [split; auto|assumption]. Qed.

(** Updating the first entry of a type with a function that keeps the
    type and turns nothing off. *)
Lemma updateFirst_noTurnOff t f (xs ys : list DietaryOption) :
  (forall o, Spec.noTurnOff o (f o)) ->
  Forall2 Spec.noTurnOff xs ys ->
  Forall2 Spec.noTurnOff xs (updateFirst t f ys).
Proof.
  intros Hf H. induction H as [|x y xs ys Hxy Hrest IH]; simpl.
  - constructor.
  - destruct (String.eqb (type y) t).
    + constructor; [|exact Hrest].
      destruct Hxy as [Ht Ha], (Hf y) as [Ht' Ha'].
      split; [congruence|auto].
    + constructor; assumption.
Qed.

Lemma setAvailable_noTurnOff o : Spec.noTurnOff o (setAvailable true o).
Proof. split; reflexivity. Qed.

Lemma setNotes_noTurnOff n o : Spec.noTurnOff o (setNotes n o).
Proof. split; [reflexivity|auto]. Qed.

(** The adjustments by cuisine only turn options on. *)
Lemma generateDietaryOptions_noTurnOff (cuisines : list string) :
  Forall2 Spec.noTurnOff baseDietaryOptions (generateDietaryOptions cuisines).
Proof.
  unfold generateDietaryOptions.
  repeat case_if;
    repeat (apply updateFirst_noTurnOff;
            [first [exact setAvailable_noTurnOff
                   | exact (setNotes_noTurnOff _)]|]);
    apply noTurnOff_refl.
Qed.

Lemma Forall2_In_r {X Y : Type} (R : X -> Y -> Prop) xs ys y :
  Forall2 R xs ys -> In y ys -> exists x, In x xs /\ R x y.
Proof.
  induction 1 as [|x0 y0 xs ys H0 _ IH]; simpl; [intros []|].
  intros [<-|Hin].
  - exists x0. auto.
  - destruct (IH Hin) as [x [Hx HR]]. exists x. auto.
Qed.

Lemma Forall2_In_l {X Y : Type} (R : X -> Y -> Prop) xs ys x :
  Forall2 R xs ys -> In x xs -> exists y, In y ys /\ R x y.
Proof.
  induction 1 as [|x0 y0 xs ys H0 _ IH]; simpl; [intros []|].
  intros [<-|Hin].
  - exists y0. auto.
  - destruct (IH Hin) as [y [Hy HR]]. exists y. auto.
Qed.

(** In the base table each of the four tags has an entry, and every
    entry of such a tag is available. *)
Lemma base_offers t :
  In t Spec.alwaysOffered ->
  (exists b, In b baseDietaryOptions /\ type b = t /\ available b = true) /\
  (forall b, In b baseDietaryOptions -> type b = t -> available b = true).
Proof.
  intro Ht.
  assert (Hex : existsb (fun b => String.eqb (type b) t && available b)
                        baseDietaryOptions = true)
    by (simpl in Ht; intuition subst; reflexivity).
  assert (Hall : forallb (fun b => negb (String.eqb (type b) t)
                                   || available b)
                         baseDietaryOptions = true)
    by (simpl in Ht; intuition subst; reflexivity).
  split.
  - apply existsb_exists in Hex as [b [Hb H]].
    apply andb_true_iff in H as [Hty Hav]. apply String.eqb_eq in Hty.
    now exists b.
  - intros b Hb Hty. rewrite forallb_forall in Hall.
    specialize (Hall b Hb). rewrite Hty, String.eqb_refl in Hall.
    exact Hall.
Qed.
End GeneratorFacts.

(** C10: the options produced by [generateDietaryOptions] are the base
    table with nothing turned off; so for each of vegetarian, nut-free,
    shellfish-free and diabetic-friendly every entry of a restaurant that
    carries these options is available, the dietary hard filter of the
    search passes for it, the analyzer finds it available, and the analyzer
    never lists it in [incompatibleOptions]. *)
Theorem generated_options_always_offered
        (cuisines : list string) (r : Restaurant)
        (restrictions : list DietaryRestrictionType) (allergies : list string) :
  dietaryOptions r = RestaurantDataGenerator.generateDietaryOptions cuisines ->
  Forall2 Spec.noTurnOff RestaurantDataGenerator.baseDietaryOptions
          (dietaryOptions r) /\
  (forall t, In t Spec.alwaysOffered ->
     (forall opt, In opt (dietaryOptions r) -> type opt = t ->
                  available opt = true) /\
     EnhancedConciergeAgent.hasDietary r t = true /\
     DietaryRestrictionsHandler.optionAvailable r t = true /\
     ~ In t (DietaryRestrictionsHandler.incompatibleOptions
               (DietaryRestrictionsHandler.analyzeRestaurantCompatibility
                  r restrictions allergies))).
Proof.
  intro Hgen.
  pose proof (generateDietaryOptions_noTurnOff cuisines) as Hmono.
  rewrite <- Hgen in Hmono. split; [exact Hmono|].
  intros t Ht. destruct (base_offers t Ht) as [[b [Hb [Hbt Hba]]] Hall].
  assert (Hevery : forall opt, In opt (dietaryOptions r) -> type opt = t ->
                               available opt = true).
  { intros opt Hin Hty.
    destruct (Forall2_In_r _ _ _ _ Hmono Hin) as [b' [Hb' [Hty' Hav']]].
    apply Hav', Hall; [exact Hb'|congruence]. }
  assert (Hsome : Spec.accommodates r t).
  { destruct (Forall2_In_l _ _ _ _ Hmono Hb) as [g [Hg [Hgt Hga]]].
    exists g. repeat split; [exact Hg|congruence|auto]. }
  assert (Hav : DietaryRestrictionsHandler.optionAvailable r t = true).
  { unfold DietaryRestrictionsHandler.optionAvailable.
    destruct (find _ (dietaryOptions r)) as [opt|] eqn:Hfind.
    - apply find_some in Hfind as [Hin Heq]. apply String.eqb_eq in Heq.
      now apply Hevery.
    - destruct Hsome as [g [Hg [Hgt _]]].
      apply (find_none _ _ Hfind) in Hg. rewrite Hgt, String.eqb_refl in Hg.
      discriminate. }
  repeat split; [exact Hevery|now apply hasDietary_accommodates|exact Hav|].
  intro Hin.
  pose proof (analyze_verdict r restrictions allergies) as Hv.
  unfold Spec.verdict in Hv. injection Hv as _ _ Hi. rewrite Hi in Hin.
  apply filter_In in Hin as [_ Hin]. rewrite Hav in Hin. discriminate.
Qed.

(** ** The theorems at concrete inputs *)

Section Instances.
Import EnhancedConciergeAgent.

Lemma mario_accommodates_vegetarian :
  Spec.accommodates (restaurant Samples.mario) "vegetarian".
Proof.
  exists (mkDietaryOption "vegetarian" true
                          (Some "Multiple vegetarian options available")).
  simpl. auto.
Defined.

Lemma mario_lacks_halal : ~ Spec.accommodates (restaurant Samples.mario) "halal".
Proof.
  intros [opt [Hin [Hty Hav]]]. simpl in Hin.
  destruct Hin as [<-|[<-|[]]]; discriminate.
Defined.

(** The search of the scenario returns Mario's, and Mario's satisfies the
    three filters extracted from the Samples.text. *)
Lemma results_satisfy_hard_filters_witness :
  In (mkResult Samples.mario 13)
     (searchRestaurants Samples.cache Samples.text (extractSearchFilters Samples.text)) /\
  In "italian" (cuisine (restaurant Samples.mario)) /\
  priceLevel (restaurant Samples.mario) = 1 /\
  Spec.accommodates (restaurant Samples.mario) "vegetarian".
Proof.
  assert (Hin : In (mkResult Samples.mario 13)
                   (searchRestaurants Samples.cache Samples.text
                                      (extractSearchFilters Samples.text)))
    by (vm_compute; left; reflexivity).
  split; [exact Hin|].
  destruct (results_satisfy_hard_filters
              Samples.cache Samples.text (extractSearchFilters Samples.text)
              (mkResult Samples.mario 13) Hin) as [Hc [Hp Hd]].
  split; [|split].
  - exact (Hc "italian" eq_refl ltac:(discriminate)).
  - exact (Hp 1 eq_refl ltac:(discriminate)).
  - exact (Hd "vegetarian" eq_refl ltac:(discriminate) eq_refl).
Defined.

(** Mario's has no halal entry: a request for halal is incompatible. *)
Lemma critical_unavailable_incompatible_witness :
  DietaryRestrictionsHandler.compatible
    (DietaryRestrictionsHandler.analyzeRestaurantCompatibility
       (restaurant Samples.mario) ["vegetarian"; "halal"] ["nuts"]) = false /\
  In "halal"
     (DietaryRestrictionsHandler.incompatibleOptions
        (DietaryRestrictionsHandler.analyzeRestaurantCompatibility
           (restaurant Samples.mario) ["vegetarian"; "halal"] ["nuts"])).
Proof.
  refine (critical_unavailable_incompatible
            (restaurant Samples.mario) ["vegetarian"; "halal"] ["nuts"]
            "halal" _ _ mario_lacks_halal).
  - simpl. auto.
  - simpl. tauto.
Defined.

(** Mario's is returned for the query italian: its keyword stage matched. *)
Lemma results_matched_a_keyword_witness :
  exists k,
    In (k, Samples.mario) Samples.cache /\
    fst (keywordStage (JS.toLowerCase "italian") k Samples.mario) = true /\
    4 <= snd (keywordStage (JS.toLowerCase "italian") k Samples.mario) <= 18.
Proof.
  refine (results_matched_a_keyword
            Samples.cache "italian" Samples.noFilters
            (mkResult Samples.mario 18) _).
  vm_compute. left. reflexivity.
Defined.

(** The effect of requesting outdoor_seating on the query italian. *)
Lemma amenity_filter_effect_witness :
  In (mkResult Samples.bella 21)
     (searchRestaurants Samples.cache "italian"
                        (Spec.withAmenity Samples.noFilters "outdoor_seating"))
  <->
  exists x,
    In x (searchRestaurants Samples.cache "italian" Samples.noFilters) /\
    In (mkResult Samples.bella 21) (Spec.amenityEffect "outdoor_seating" x).
Proof.
  refine (amenity_filter_effect
            Samples.cache "italian" Samples.noFilters "outdoor_seating"
            (mkResult Samples.bella 21) eq_refl _).
  discriminate.
Defined.

(** The scenario on the sample cache. *)
Lemma mario_scenario_witness :
  exists x,
    In x (searchRestaurants Samples.cache Samples.text (extractSearchFilters Samples.text)) /\
    data x = Samples.mario /\ 0 < searchScore x.
Proof.
  refine (proj2 mario_scenario Samples.cache "mario's italian bistro"
                Samples.mario _ eq_refl eq_refl eq_refl
                mario_accommodates_vegetarian).
  vm_compute. left. reflexivity.
Defined.

(** The record generated for Olive Tree: the cuisine is mediterranean, so
    the options went through the vegan and the halal adjustments. *)
Lemma generated_options_always_offered_witness :
  RestaurantDataGenerator.cuisines
    (RestaurantDataGenerator.analyzeRestaurantName "Olive Tree")
  = ["mediterranean"] /\
  Forall2 Spec.noTurnOff RestaurantDataGenerator.baseDietaryOptions
          (dietaryOptions Samples.olive) /\
  (forall t, In t Spec.alwaysOffered ->
     (forall opt, In opt (dietaryOptions Samples.olive) -> type opt = t ->
                  available opt = true) /\
     hasDietary Samples.olive t = true /\
     DietaryRestrictionsHandler.optionAvailable Samples.olive t = true /\
     ~ In t (DietaryRestrictionsHandler.incompatibleOptions
               (DietaryRestrictionsHandler.analyzeRestaurantCompatibility
                  Samples.olive ["vegetarian"; "kosher"] ["nuts"]))).
Proof.
  split; [vm_compute; reflexivity|].
  refine (generated_options_always_offered
            ["mediterranean"] Samples.olive ["vegetarian"; "kosher"] ["nuts"]
            _).
  vm_compute. reflexivity.
Defined.
End Instances.

(** ** The analyzer's score and verdict, and the dietary filter *)

Section ScoreFacts.
Import DietaryRestrictionsHandler.

Lemma fold_left_score_frame {X : Type}
      (f : DietaryAnalysis -> X -> DietaryAnalysis) (xs : list X) :
  (forall a x, score (f a x) = score a) ->
  forall a, score (fold_left f xs a) = score a.
Proof.
  intros Hf. induction xs as [|x xs IH]; intro a; simpl; [reflexivity|].
  now rewrite IH, Hf.
Qed.

Lemma conflictStep_score rs a e : score (conflictStep rs a e) = score a.
Proof.
  destruct e as [primary conflicting]. unfold conflictStep.
  repeat case_if; reflexivity.
Qed.

Lemma cuisineStep_score rs a c : score (cuisineStep rs a c) = score a.
Proof.
  unfold cuisineStep.
  destruct (lookup (JS.toLowerCase c) cuisineCompatibility) as [tbl|];
    [|reflexivity].
  apply fold_left_score_frame. intros a' t. unfold cuisineRestrictionStep.
  destruct (lookup t tbl); [|reflexivity]. repeat case_if; reflexivity.
Qed.

(** Each unavailable restriction costs 30 points, 20 more when critical. *)
Lemma restriction_loop_score r rs : forall a,
  score (fold_left (restrictionStep r) rs a)
  = score a
    - 30 * Z.of_nat (length (filter (fun t => negb (optionAvailable r t)) rs))
    - 20 * Z.of_nat
             (length (filter isCriticalRestriction
                             (filter (fun t => negb (optionAvailable r t)) rs))).
Proof.
  induction rs as [|t rs IH]; intro a; [simpl; lia|].
  cbn [fold_left filter]. rewrite IH. unfold restrictionStep.
  destruct (optionAvailable r t) eqn:Hav; cbn [negb filter].
  - simpl score. lia.
  - destruct (isCriticalRestriction t) eqn:Hcr; cbn [filter];
      rewrite ?Hcr; cbn [length]; simpl score; lia.
Qed.

Lemma filter_nonempty_existsb {X : Type} (p : X -> bool) (xs : list X) :
  (0 <? Z.of_nat (length (filter p xs))) = existsb p xs.
Proof.
  induction xs as [|x xs IH]; [reflexivity|].
  simpl. destruct (p x); simpl; [|exact IH].
  apply Z.ltb_lt. lia.
Qed.

(** Each cuisine tag with a matching allergen costs 10 points. *)
Lemma allergy_loop_score al cs : forall a,
  score (fold_left (allergyStep al) cs a)
  = score a - 10 * Z.of_nat (length (filter (Props.allergyRisk al) cs)).
Proof.
  induction cs as [|c cs IH]; intro a; [simpl; lia|].
  cbn [fold_left filter]. rewrite IH.
  unfold allergyStep. unfold Props.allergyRisk at 2.
  destruct (lookup (JS.toLowerCase c) cuisineAllergyRisks) as [risks|];
    [|lia].
  rewrite filter_nonempty_existsb.
  destruct (existsb _ risks); cbn [length]; simpl score; lia.
Qed.

Lemma extensiveBonus_score r a :
  score (extensiveBonus r a)
  = score a
    + (if 5 <? Z.of_nat (length (filter available (dietaryOptions r)))
       then 10 else 0).
Proof. unfold extensiveBonus. case_if; simpl; lia. Qed.

(** Without allergies no cuisine tag is an allergy risk. *)
Lemma no_allergy_no_risk (cs : list string) :
  filter (Props.allergyRisk []) cs = [].
Proof.
  induction cs as [|c cs IH]; [reflexivity|].
  simpl. unfold Props.allergyRisk at 1.
  destruct (lookup (JS.toLowerCase c) cuisineAllergyRisks) as [risks|];
    [|exact IH].
  replace (existsb _ risks) with false; [exact IH|].
  symmetry. induction risks; [reflexivity|assumption].
Qed.

(** The score of an analysis is the clamped sum of the passes. *)
Lemma analysis_score r rs al :
  score (analyzeRestaurantCompatibility r rs al)
  = Z.max 0 (Z.min 100 (Props.rawScore r rs al)).
Proof.
  unfold analyzeRestaurantCompatibility, Props.rawScore.
  destruct ((length rs =? 0)%nat && (length al =? 0)%nat) eqn:Hfast.
  - apply andb_true_iff in Hfast as [Hrs Hal].
    apply Nat.eqb_eq in Hrs, Hal.
    destruct rs; [|discriminate]. destruct al; [|discriminate].
    rewrite no_allergy_no_risk. simpl. case_if; lia.
  - unfold clampScore. cbn [score setScore]. rewrite extensiveBonus_score.
    unfold checkAllergyWarnings, analyzeCuisineCompatibility,
      checkConflictingRestrictions.
    rewrite allergy_loop_score.
    rewrite (fold_left_score_frame _ _ (cuisineStep_score rs)).
    rewrite (fold_left_score_frame _ _ (conflictStep_score rs)).
    rewrite restriction_loop_score. reflexivity.
Qed.

Lemma isCritical_In t :
  isCriticalRestriction t = true <-> In t Spec.criticalSet.
Proof. apply arrayIncludes_In. Qed.
End ScoreFacts.

(** X1: [compatible] is true exactly when every requested restriction of
    the critical set is available on the restaurant (its first entry of
    that type has [available = true]); restrictions outside the critical
    set and allergies never clear it. *)
Theorem compatible_iff_critical_available
        (r : Restaurant) (restrictions : list DietaryRestrictionType)
        (allergies : list string) :
  DietaryRestrictionsHandler.compatible
    (DietaryRestrictionsHandler.analyzeRestaurantCompatibility
       r restrictions allergies) = true
  <->
  (forall t, In t restrictions -> In t Spec.criticalSet ->
             DietaryRestrictionsHandler.optionAvailable r t = true).
Proof.
  pose proof (analyze_verdict r restrictions allergies) as Hv.
  unfold Spec.verdict in Hv. injection Hv as Hc _ _. rewrite Hc.
  rewrite forallb_forall. split.
  - intros H t Hin Hcrit. specialize (H t Hin).
    apply isCritical_In in Hcrit. rewrite Hcrit in H.
    now rewrite orb_false_r in H.
  - intros H t Hin.
    destruct (DietaryRestrictionsHandler.isCriticalRestriction t) eqn:Hcrit.
    + apply isCritical_In in Hcrit. now rewrite (H t Hin Hcrit).
    + now rewrite orb_true_r.
Qed.

(** X2: the user's allergies never change [compatible] nor the two option
    lists; they can only lower the score. *)
Theorem allergies_only_lower_score
        (r : Restaurant) (restrictions : list DietaryRestrictionType)
        (allergies : list string) :
  let with_al :=
    DietaryRestrictionsHandler.analyzeRestaurantCompatibility
      r restrictions allergies in
  let without :=
    DietaryRestrictionsHandler.analyzeRestaurantCompatibility
      r restrictions [] in
  DietaryRestrictionsHandler.compatible with_al
    = DietaryRestrictionsHandler.compatible without /\
  DietaryRestrictionsHandler.compatibleOptions with_al
    = DietaryRestrictionsHandler.compatibleOptions without /\
  DietaryRestrictionsHandler.incompatibleOptions with_al
    = DietaryRestrictionsHandler.incompatibleOptions without /\
  DietaryRestrictionsHandler.score with_al
    <= DietaryRestrictionsHandler.score without.
Proof.
  intros with_al without. subst with_al without.
  pose proof (analyze_verdict r restrictions allergies) as H1.
  pose proof (analyze_verdict r restrictions []) as H2.
  unfold Spec.verdict in H1, H2.
  rewrite <- H2 in H1. injection H1 as Hc Hco Hi.
  repeat split; try assumption.
  rewrite !analysis_score. unfold Props.rawScore.
  rewrite no_allergy_no_risk. simpl length.
  pose proof (Nat2Z.is_nonneg
                (length (filter (Props.allergyRisk allergies) (cuisine r)))).
  lia.
Qed.

(** X3: the score is 100, minus 30 for each requested restriction that is
    not available, minus 20 more for each of those that is critical, minus
    10 for each cuisine tag of the restaurant with an allergen the user
    named, plus 10 when more than five options are available, clamped into
    [0, 100]; with no restriction and no allergy the analysis is the
    initial one with a single recommendation. *)
Theorem score_accounting
        (r : Restaurant) (restrictions : list DietaryRestrictionType)
        (allergies : list string) :
  let analysis :=
    DietaryRestrictionsHandler.analyzeRestaurantCompatibility
      r restrictions allergies in
  let missing :=
    filter (fun t => negb (DietaryRestrictionsHandler.optionAvailable r t))
           restrictions in
  DietaryRestrictionsHandler.score analysis
  = Z.max 0
      (Z.min 100
         (100
          - 30 * Z.of_nat (length missing)
          - 20 * Z.of_nat
                   (length
                      (filter DietaryRestrictionsHandler.isCriticalRestriction
                              missing))
          - 10 * Z.of_nat
                   (length (filter (Props.allergyRisk allergies) (cuisine r)))
          + (if 5 <? Z.of_nat (length (filter available (dietaryOptions r)))
             then 10 else 0))) /\
  (restrictions = [] -> allergies = [] ->
   analysis
   = DietaryRestrictionsHandler.mkAnalysis
       true 100 []
       ["No dietary restrictions specified - all options should be available"]
       [] []).
Proof.
  intros analysis missing. split.
  - subst analysis missing. rewrite analysis_score. reflexivity.
  - intros -> ->. reflexivity.
Qed.

(** X4: an analysis with [compatible = false] scores at most 60. *)
Theorem incompatible_scores_at_most_60
        (r : Restaurant) (restrictions : list DietaryRestrictionType)
        (allergies : list string) :
  DietaryRestrictionsHandler.compatible
    (DietaryRestrictionsHandler.analyzeRestaurantCompatibility
       r restrictions allergies) = false ->
  DietaryRestrictionsHandler.score
    (DietaryRestrictionsHandler.analyzeRestaurantCompatibility
       r restrictions allergies) <= 60.
Proof.
  intro Hc.
  pose proof (analyze_verdict r restrictions allergies) as Hv.
  unfold Spec.verdict in Hv. injection Hv as Hcomp _ _.
  rewrite Hcomp in Hc. clear Hcomp.
  rewrite analysis_score. unfold Props.rawScore.
  set (missing := filter _ restrictions).
  assert (H1 : (1 <= length (filter DietaryRestrictionsHandler.isCriticalRestriction
                                    missing))%nat).
  { subst missing. induction restrictions as [|t rs IH]; [discriminate|].
    cbn [forallb] in Hc. cbn [filter].
    destruct (DietaryRestrictionsHandler.optionAvailable r t) eqn:Hav;
      cbn [negb orb andb] in *.
    - apply IH. exact Hc.
    - cbn [filter].
      destruct (DietaryRestrictionsHandler.isCriticalRestriction t) eqn:Hcr;
        cbn [negb andb length] in *; [lia|apply IH; exact Hc]. }
  assert (H2 : (length (filter DietaryRestrictionsHandler.isCriticalRestriction
                               missing) <= length missing)%nat)
    by apply filter_length_le.
  case_if; lia.
Qed.

Section DietaryFilterFacts.
Import DietaryRestrictionsHandler.

Lemma compareAnalyses_notAfter a b :
  JS.notAfter compareAnalyses a b = true <-> score (snd b) <= score (snd a).
Proof.
  unfold JS.notAfter, compareAnalyses.
  destruct (Z.compare_spec (score (snd b)) (score (snd a))); split;
    intro; try reflexivity; try discriminate; lia.
Qed.

Lemma filter_all {X : Type} (p : X -> bool) (xs : list X) :
  (forall x, In x xs -> p x = true) -> filter p xs = xs.
Proof.
  induction xs as [|x xs IH]; intro H; [reflexivity|].
  simpl. rewrite (H x (or_introl eq_refl)). f_equal.
  apply IH. intros y Hy. apply H. now right.
Qed.

Lemma filter_none {X : Type} (p : X -> bool) (xs : list X) :
  (forall x, In x xs -> p x = false) -> filter p xs = [].
Proof.
  induction xs as [|x xs IH]; intro H; [reflexivity|].
  simpl. rewrite (H x (or_introl eq_refl)).
  apply IH. intros y Hy. apply H. now right.
Qed.

(** Filtering the analysed pairs and dropping the analyses is filtering
    the restaurants by the analysed test. *)
Lemma map_fst_filter_analysed {X Y : Type} (f : X -> Y) (p : X * Y -> bool)
      (xs : list X) :
  map fst (filter p (map (fun x => (x, f x)) xs))
  = filter (fun x => p (x, f x)) xs.
Proof.
  induction xs as [|x xs IH]; [reflexivity|].
  simpl. destruct (p (x, f x)); simpl; now rewrite IH.
Qed.

Lemma filter_twice {X : Type} (p q : X -> bool) (xs : list X) :
  filter p (filter q xs) = filter (fun x => p x && q x) xs.
Proof.
  induction xs as [|x xs IH]; [reflexivity|].
  simpl. destruct (q x); simpl.
  - rewrite andb_true_r. destruct (p x); now rewrite IH.
  - now rewrite andb_false_r.
Qed.
End DietaryFilterFacts.

(** X5: [filterRestaurantsByDietary] returns exactly the given restaurants
    whose analysis scores at least the threshold, each paired with its
    analysis, ordered by score from highest to lowest; restaurants with
    the same score keep the order in which they were given. *)
Theorem dietary_filter_result
        (restaurants : list Restaurant)
        (restrictions : list DietaryRestrictionType)
        (allergies : list string) (minScore : Z) :
  let analyse r :=
    DietaryRestrictionsHandler.analyzeRestaurantCompatibility
      r restrictions allergies in
  let result :=
    DietaryRestrictionsHandler.filterRestaurantsByDietary
      restaurants restrictions allergies minScore in
  (forall r a,
      In (r, a) result <->
      In r restaurants /\ a = analyse r /\
      minScore <= DietaryRestrictionsHandler.score a) /\
  StronglySorted
    (fun x y => DietaryRestrictionsHandler.score (snd y)
                <= DietaryRestrictionsHandler.score (snd x))
    result /\
  (forall s,
      map fst
          (filter (fun x => DietaryRestrictionsHandler.score (snd x) =? s)
                  result)
      = filter (fun r =>
                  (DietaryRestrictionsHandler.score (analyse r) =? s)
                  && (minScore <=? DietaryRestrictionsHandler.score (analyse r)))
               restaurants).
Proof.
  intros analyse result. subst result.
  unfold DietaryRestrictionsHandler.filterRestaurantsByDietary.
  fold analyse. split; [|split].
  - intros r a. rewrite sort_In, filter_In, in_map_iff. simpl. split.
    + intros [[r' [[= <- <-] Hin]] Hs]. apply Z.leb_le in Hs. auto.
    + intros [Hin [-> Hs]]. split; [now exists r|now apply Z.leb_le].
  - apply sort_sorted.
    + intros a b c H1 H2. lia.
    + intros a b H. now apply compareAnalyses_notAfter.
    + intros a b H.
      destruct (Z.le_gt_cases (DietaryRestrictionsHandler.score (snd a))
                              (DietaryRestrictionsHandler.score (snd b)))
        as [Hle|Hgt]; [exact Hle|].
      assert (Ht : JS.notAfter DietaryRestrictionsHandler.compareAnalyses a b
                   = true) by (apply compareAnalyses_notAfter; lia).
      congruence.
  - intro s. rewrite sort_stable.
    + rewrite filter_twice.
      rewrite (map_fst_filter_analysed analyse). reflexivity.
    + intros a b Ha Hb. apply Z.eqb_eq in Ha, Hb.
      apply compareAnalyses_notAfter. lia.
Qed.

(** X6: with a threshold of 0 or less [filterRestaurantsByDietary] drops no
    restaurant, and with a threshold above 100 it returns nothing. *)
Theorem dietary_filter_threshold_edges
        (restaurants : list Restaurant)
        (restrictions : list DietaryRestrictionType)
        (allergies : list string) (minScore : Z) :
  (minScore <= 0 ->
   Permutation
     (map fst (DietaryRestrictionsHandler.filterRestaurantsByDietary
                 restaurants restrictions allergies minScore))
     restaurants) /\
  (100 < minScore ->
   DietaryRestrictionsHandler.filterRestaurantsByDietary
     restaurants restrictions allergies minScore = []).
Proof.
  unfold DietaryRestrictionsHandler.filterRestaurantsByDietary.
  assert (Hb : forall ra,
             In ra (map (fun r =>
                           (r, DietaryRestrictionsHandler.analyzeRestaurantCompatibility
                                 r restrictions allergies)) restaurants) ->
             0 <= DietaryRestrictionsHandler.score (snd ra) <= 100).
  { intros ra Hin. apply in_map_iff in Hin as [r [<- _]]. simpl.
    rewrite analysis_score. lia. }
  split; intro Hmin.
  - rewrite filter_all.
    + eapply Permutation_trans;
        [apply Permutation_map, Permutation_sym, sort_perm|].
      rewrite map_map. simpl. rewrite map_id. apply Permutation_refl.
    + intros ra Hin. apply Z.leb_le. specialize (Hb ra Hin). lia.
  - rewrite filter_none; [reflexivity|].
    intros ra Hin. apply Z.leb_gt. specialize (Hb ra Hin). lia.
Qed.

(** ** Parsing dietary information *)

Section ParseFacts.
Import DietaryRestrictionsHandler.

(** The keyword loop pushes the tags with at least one keyword in the
    text, in table order, and the confidence grows exactly when it pushes. *)
Lemma keyword_loop text w tbl :
  0 < w ->
  forall st,
    fst (fold_left (keywordStep text w) tbl st)
    = (fst st
         ++ map fst (filter (fun e => 0 <? matchCount text (snd e)) tbl))%list
    /\ snd st <= snd (fold_left (keywordStep text w) tbl st)
    /\ (snd (fold_left (keywordStep text w) tbl st) = snd st <->
        filter (fun e => 0 <? matchCount text (snd e)) tbl = []).
Proof.
  intro Hw. induction tbl as [|[tag kws] tbl IH]; intro st.
  - simpl. rewrite app_nil_r. repeat split; lia.
  - cbn [fold_left filter snd].
    assert (Hstep : keywordStep text w st (tag, kws)
                    = if 0 <? matchCount text kws
                      then ((fst st ++ [tag])%list,
                            snd st + matchCount text kws * w)
                      else st) by reflexivity.
    rewrite Hstep. clear Hstep.
    destruct (0 <? matchCount text kws) eqn:Hhit.
    + apply Z.ltb_lt in Hhit.
      destruct (IH ((fst st ++ [tag])%list, snd st + matchCount text kws * w))
        as [H1 [H2 _]].
      cbn [fst snd] in H1, H2.
      split; [|split].
      * rewrite H1. cbn [map fst]. now rewrite <- app_assoc.
      * nia.
      * split; [intro; nia|discriminate].
    + apply IH.
Qed.

Lemma preference_loop text pats :
  forall st,
    fst (fold_left (preferenceStep text) pats st)
    = (fst st ++ flat_map (fun lit => JS.execAll lit 0 text) pats)%list
    /\ snd (fold_left (preferenceStep text) pats st)
       = snd st
         + 5 * Z.of_nat
                 (length (flat_map (fun lit => JS.execAll lit 0 text) pats)).
Proof.
  induction pats as [|lit pats IH]; intro st.
  - simpl. rewrite app_nil_r. split; [reflexivity|lia].
  - cbn [fold_left flat_map]. destruct (IH (preferenceStep text st lit))
      as [H1 H2].
    assert (Hf : fst (preferenceStep text st lit)
                 = (fst st ++ JS.execAll lit 0 text)%list) by reflexivity.
    assert (Hs : snd (preferenceStep text st lit)
                 = snd st + 5 * Z.of_nat (length (JS.execAll lit 0 text)))
      by reflexivity.
    rewrite Hf in H1. rewrite Hs in H2.
    split.
    + rewrite H1. now rewrite <- app_assoc.
    + rewrite H2, length_app. lia.
Qed.

(** What [parseDietaryInformation] returns, field by field. *)
Lemma parse_fields text :
  let normalized := JS.trim (JS.toLowerCase text) in
  let hit := fun e : string * list string =>
               0 <? matchCount normalized (snd e) in
  let parsed := parseDietaryInformation text in
  restrictions parsed = map fst (filter hit RESTRICTION_KEYWORDS) /\
  allergies parsed = map fst (filter hit ALLERGY_KEYWORDS) /\
  preferences parsed
  = flat_map (fun lit => JS.execAll lit 0 normalized) preferencePatterns /\
  0 <= confidence parsed <= 100 /\
  (confidence parsed = 0 <->
   restrictions parsed = [] /\ allergies parsed = [] /\
   preferences parsed = []).
Proof.
  intros normalized hit parsed. subst parsed.
  unfold parseDietaryInformation. fold normalized.
  destruct (keyword_loop normalized 10 RESTRICTION_KEYWORDS ltac:(lia) ([], 0))
    as [R1 [R2 R3]].
  destruct (fold_left (keywordStep normalized 10) RESTRICTION_KEYWORDS ([], 0))
    as [rs c1].
  cbn [fst snd] in R1, R2, R3.
  destruct (keyword_loop normalized 15 ALLERGY_KEYWORDS ltac:(lia) ([], c1))
    as [A1 [A2 A3]].
  destruct (fold_left (keywordStep normalized 15) ALLERGY_KEYWORDS ([], c1))
    as [als c2].
  cbn [fst snd] in A1, A2, A3.
  destruct (preference_loop normalized preferencePatterns ([], c2)) as [P1 P2].
  destruct (fold_left (preferenceStep normalized) preferencePatterns ([], c2))
    as [ps c3].
  cbn [fst snd] in P1, P2.
  cbn [restrictions allergies preferences confidence].
  fold hit in R1, R3, A1, A3.
  rewrite app_nil_l in R1, A1, P1.
  split; [exact R1|]. split; [exact A1|]. split; [exact P1|].
  split; [lia|]. split.
  - intro H0.
    assert (Hr : filter hit RESTRICTION_KEYWORDS = []) by (apply R3; lia).
    assert (Ha : filter hit ALLERGY_KEYWORDS = []) by (apply A3; lia).
    rewrite Hr in R1. rewrite Ha in A1.
    split; [exact R1|]. split; [exact A1|].
    rewrite P1. destruct (flat_map _ preferencePatterns); [reflexivity|].
    simpl length in P2. lia.
  - intros [Hr [Ha Hp]].
    rewrite R1 in Hr. rewrite A1 in Ha. rewrite P1 in Hp.
    apply map_eq_nil in Hr, Ha.
    apply R3 in Hr. apply A3 in Ha. rewrite Hp in P2. simpl in P2. lia.
Qed.

Lemma subsequence_filter {X : Type} (p : X -> bool) (xs : list X) :
  Props.Subsequence (filter p xs) xs.
Proof.
  induction xs as [|x xs IH]; simpl; [constructor|].
  destruct (p x); now constructor.
Qed.

Lemma subsequence_map {X Y : Type} (f : X -> Y) (sub xs : list X) :
  Props.Subsequence sub xs -> Props.Subsequence (map f sub) (map f xs).
Proof. induction 1; simpl; now constructor. Qed.

Lemma subsequence_In {X : Type} (sub xs : list X) (x : X) :
  Props.Subsequence sub xs -> In x sub -> In x xs.
Proof.
  induction 1 as [|y sub xs _ IH|y sub xs _ IH]; simpl; intro Hin.
  - exact Hin.
  - right. now apply IH.
  - destruct Hin as [->|Hin]; [now left|right; now apply IH].
Qed.

Lemma subsequence_NoDup {X : Type} (sub xs : list X) :
  Props.Subsequence sub xs -> NoDup xs -> NoDup sub.
Proof.
  induction 1 as [|y sub xs Hs IH|y sub xs Hs IH]; intro Hnd.
  - constructor.
  - inversion Hnd. auto.
  - inversion Hnd as [|? ? Hnotin Hnd']. subst. constructor; [|auto].
    intro Hin. apply Hnotin. eapply subsequence_In; eassumption.
Qed.

Lemma matchCount_positive text kws :
  (0 <? matchCount text kws) = true <->
  exists kw, In kw kws /\ JS.includes text (JS.toLowerCase kw) = true.
Proof.
  unfold matchCount. rewrite filter_nonempty_existsb, existsb_exists.
  reflexivity.
Qed.
End ParseFacts.

(** X7: the confidence of [parseDietaryInformation] lies in [0, 100], and
    it is 0 exactly when the text yields no restriction, no allergy and no
    preference. *)
Theorem parse_confidence
        (text : string) :
  let parsed := DietaryRestrictionsHandler.parseDietaryInformation text in
  0 <= DietaryRestrictionsHandler.confidence parsed <= 100 /\
  (DietaryRestrictionsHandler.confidence parsed = 0 <->
   DietaryRestrictionsHandler.restrictions parsed = [] /\
   DietaryRestrictionsHandler.allergies parsed = [] /\
   DietaryRestrictionsHandler.preferences parsed = []).
Proof.
  intro parsed. subst parsed.
  destruct (parse_fields text) as [_ [_ [_ [Hb Hz]]]].
  split; [exact Hb|exact Hz].
Qed.

(** X8: the restrictions [parseDietaryInformation] returns are restriction
    types of the table, in table order and without repetition, and a type
    is returned exactly when one of its keywords occurs in the trimmed,
    lower-cased text. *)
Theorem parse_restrictions
        (text : string) :
  let normalized := JS.trim (JS.toLowerCase text) in
  let found :=
    DietaryRestrictionsHandler.restrictions
      (DietaryRestrictionsHandler.parseDietaryInformation text) in
  Props.Subsequence found Props.restrictionTypes /\
  NoDup found /\
  (forall t,
      In t found <->
      exists kws kw,
        In (t, kws) DietaryRestrictionsHandler.RESTRICTION_KEYWORDS /\
        In kw kws /\
        JS.includes normalized (JS.toLowerCase kw) = true).
Proof.
  intros normalized found. subst found.
  destruct (parse_fields text) as [Hr _]. fold normalized in Hr.
  rewrite Hr.
  assert (Hsub : Props.Subsequence
                   (map fst
                        (filter (fun e : string * list string =>
                                   0 <? DietaryRestrictionsHandler.matchCount
                                          normalized (snd e))
                                DietaryRestrictionsHandler.RESTRICTION_KEYWORDS))
                   Props.restrictionTypes).
  { change Props.restrictionTypes
      with (map fst DietaryRestrictionsHandler.RESTRICTION_KEYWORDS).
    apply subsequence_map, subsequence_filter. }
  split; [exact Hsub|split].
  - eapply subsequence_NoDup; [exact Hsub|].
    unfold Props.restrictionTypes.
    repeat (constructor; [simpl; intuition discriminate|]). constructor.
  - intro t. rewrite in_map_iff. split.
    + intros [[t' kws] [Heq Hin]]. simpl in Heq. subst t'.
      apply filter_In in Hin as [Hin Hhit]. simpl in Hhit.
      apply matchCount_positive in Hhit as [kw [Hkw Hinc]].
      now exists kws, kw.
    + intros [kws [kw [Hin [Hkw Hinc]]]]. exists (t, kws).
      split; [reflexivity|]. apply filter_In. split; [exact Hin|].
      simpl. apply matchCount_positive. now exists kw.
Qed.

Section CaseFacts.

Lemma lowerAscii_idempotent (c : ascii) :
  JS.lowerAscii (JS.lowerAscii c) = JS.lowerAscii c.
Proof. destruct c as [[] [] [] [] [] [] [] []]; reflexivity. Qed.

Lemma toLowerCase_idempotent (s : string) :
  JS.toLowerCase (JS.toLowerCase s) = JS.toLowerCase s.
Proof.
  induction s as [|c s IH]; [reflexivity|].
  simpl. now rewrite lowerAscii_idempotent, IH.
Qed.
End CaseFacts.

(** X9: [parseDietaryInformation] and [createDietarySearchSuggestion] do
    not depend on the case of the letters A-Z in the text: the lower-cased
    text gives the same result. *)
Theorem parse_ignores_case
        (text : string) :
  DietaryRestrictionsHandler.parseDietaryInformation (JS.toLowerCase text)
  = DietaryRestrictionsHandler.parseDietaryInformation text /\
  DietaryRestrictionsHandler.createDietarySearchSuggestion (JS.toLowerCase text)
  = DietaryRestrictionsHandler.createDietarySearchSuggestion text.
Proof.
  assert (H : DietaryRestrictionsHandler.parseDietaryInformation
                (JS.toLowerCase text)
              = DietaryRestrictionsHandler.parseDietaryInformation text).
  { unfold DietaryRestrictionsHandler.parseDietaryInformation.
    now rewrite toLowerCase_idempotent. }
  split; [exact H|].
  unfold DietaryRestrictionsHandler.createDietarySearchSuggestion.
  now rewrite H.
Qed.

(** X10: [createDietarySearchSuggestion] returns at most three suggestions,
    and none exactly when the confidence of the parse is 0. *)
Theorem suggestions_follow_parse
        (text : string) :
  (length (DietaryRestrictionsHandler.createDietarySearchSuggestion text)
   <= 3)%nat /\
  (DietaryRestrictionsHandler.createDietarySearchSuggestion text = [] <->
   DietaryRestrictionsHandler.confidence
     (DietaryRestrictionsHandler.parseDietaryInformation text) = 0).
Proof.
  destruct (parse_fields text) as [_ [_ [_ [_ Hz]]]]. cbv zeta in Hz.
  unfold DietaryRestrictionsHandler.createDietarySearchSuggestion.
  destruct (DietaryRestrictionsHandler.restrictions
              (DietaryRestrictionsHandler.parseDietaryInformation text))
    as [|r rs];
    destruct (DietaryRestrictionsHandler.allergies
                (DietaryRestrictionsHandler.parseDietaryInformation text))
      as [|a als];
    destruct (DietaryRestrictionsHandler.preferences
                (DietaryRestrictionsHandler.parseDietaryInformation text))
      as [|q qs];
    cbn [length Nat.ltb Nat.leb app]; (split; [simpl; lia|]);
    rewrite Hz; split; intro H;
      try discriminate H; try reflexivity; try tauto;
      try (destruct H as [H1 [H2 H3]]; discriminate).
Qed.

(** ** The generator's name analysis and options *)

Section NameFacts.
Import RestaurantDataGenerator.

(** The detection loop stops at the first table entry with a matching
    indicator. *)
Lemma detectCuisine_find nameLower entries cs conf :
  detectCuisine nameLower entries (cs, conf)
  = match find (fun e => indicatorsMatch nameLower (snd e)) entries with
    | Some e => ((cs ++ [fst e])%list, conf + 10)
    | None => (cs, conf)
    end.
Proof.
  induction entries as [|[c inds] entries IH]; [reflexivity|].
  simpl. destruct (indicatorsMatch nameLower inds); [reflexivity|exact IH].
Qed.
End NameFacts.

(** X11: [analyzeRestaurantName] always infers exactly one cuisine, one of
    the ten of its table.  When an indicator of the table occurs in the
    lower-cased name the cuisine is the first such entry's and the
    confidence is 85; otherwise the cuisine is american and the confidence
    55.  Type, price level and expected quality are one of five fixed
    rows, so the price level is 1, 2 or 4. *)
Theorem name_analysis_shape
        (name : string) :
  let analysis := RestaurantDataGenerator.analyzeRestaurantName name in
  let hit :=
    find (fun e => RestaurantDataGenerator.indicatorsMatch
                     (JS.toLowerCase name) (snd e))
         RestaurantDataGenerator.cuisineIndicators in
  (exists c, RestaurantDataGenerator.cuisines analysis = [c] /\
             In c Props.knownCuisines) /\
  match hit with
  | Some e => RestaurantDataGenerator.cuisines analysis = [fst e] /\
              RestaurantDataGenerator.confidence analysis = 85
  | None => RestaurantDataGenerator.cuisines analysis = ["american"] /\
            RestaurantDataGenerator.confidence analysis = 55
  end /\
  In (RestaurantDataGenerator.restaurantType analysis,
      RestaurantDataGenerator.na_priceLevel analysis,
      RestaurantDataGenerator.expectedQuality analysis)
     [ ("fine_dining", 4, 4.5%Q); ("fast_casual", 1, 3.5%Q);
       ("cafe", 2, 4.0%Q); ("bar_restaurant", 2, 3.8%Q);
       ("casual_dining", 2, 4.0%Q) ] /\
  In (RestaurantDataGenerator.na_priceLevel analysis) [1; 2; 4].
Proof.
  intros analysis hit. subst analysis.
  unfold RestaurantDataGenerator.analyzeRestaurantName.
  rewrite detectCuisine_find. fold hit.
  assert (Hkeys : forall e, hit = Some e -> In (fst e) Props.knownCuisines).
  { intros e He. apply find_some in He as [Hin _].
    change Props.knownCuisines
      with (map fst RestaurantDataGenerator.cuisineIndicators).
    now apply in_map. }
  destruct hit as [e|].
  - specialize (Hkeys e eq_refl). cbn [app length Nat.eqb].
    repeat case_if;
      cbn [RestaurantDataGenerator.cuisines RestaurantDataGenerator.confidence
           RestaurantDataGenerator.restaurantType
           RestaurantDataGenerator.na_priceLevel
           RestaurantDataGenerator.expectedQuality];
      (split; [exists (fst e); auto|]);
      (split; [split; reflexivity|]); simpl; tauto.
  - cbn [app length Nat.eqb].
    repeat case_if;
      cbn [RestaurantDataGenerator.cuisines RestaurantDataGenerator.confidence
           RestaurantDataGenerator.restaurantType
           RestaurantDataGenerator.na_priceLevel
           RestaurantDataGenerator.expectedQuality];
      (split; [exists "american"; split; [reflexivity|simpl; tauto]|]);
      (split; [split; reflexivity|]); simpl; tauto.
Qed.

Section OptionFacts.
Import RestaurantDataGenerator.

Lemma updateFirst_types t f xs :
  (forall o, type (f o) = type o) ->
  map type (updateFirst t f xs) = map type xs.
Proof.
  intro Hf. induction xs as [|x xs IH]; [reflexivity|].
  simpl. destruct (String.eqb (type x) t); simpl.
  - now rewrite Hf.
  - now rewrite IH.
Qed.

(** The generated options are the twelve types of the base table, in
    order, each once. *)
Lemma generateDietaryOptions_types cuisines :
  map type (generateDietaryOptions cuisines) = Props.restrictionTypes.
Proof.
  unfold generateDietaryOptions.
  repeat case_if;
    rewrite ?updateFirst_types by (intro; reflexivity); reflexivity.
Qed.

(** With one entry per type, the first entry of a type is the only one. *)
Lemma find_unique_type t (opts : list DietaryOption) :
  NoDup (map type opts) ->
  existsb (fun opt => String.eqb (type opt) t && available opt) opts
  = match find (fun opt => String.eqb (type opt) t) opts with
    | Some opt => available opt
    | None => false
    end.
Proof.
  induction opts as [|o opts IH]; intro Hnd; [reflexivity|].
  inversion Hnd as [|? ? Hnotin Hnd']. subst. simpl.
  destruct (String.eqb_spec (type o) t) as [Heq|Hne]; simpl.
  - destruct (available o); [reflexivity|]. simpl.
    apply not_true_is_false. intro Hex.
    apply existsb_exists in Hex as [o' [Hin Ho']].
    apply andb_true_iff in Ho' as [Ht _]. apply String.eqb_eq in Ht.
    apply Hnotin. rewrite Heq, <- Ht. now apply in_map.
  - now apply IH.
Qed.

Lemma restrictionTypes_NoDup : NoDup Props.restrictionTypes.
Proof.
  unfold Props.restrictionTypes.
  repeat (constructor; [simpl; intuition discriminate|]). constructor.
Qed.
End OptionFacts.

(** X12: whenever the analyzer finds a restriction available on a
    restaurant, the dietary filter of the search passes for it; and on a
    restaurant with at most one entry per type, the generated ones among
    them, the two tests agree. *)
Theorem analyzer_and_search_filter_agree
        (r : Restaurant) (t : string) :
  (DietaryRestrictionsHandler.optionAvailable r t = true ->
   EnhancedConciergeAgent.hasDietary r t = true) /\
  (NoDup (map type (dietaryOptions r)) ->
   EnhancedConciergeAgent.hasDietary r t
   = DietaryRestrictionsHandler.optionAvailable r t) /\
  (forall cuisines,
      dietaryOptions r
      = RestaurantDataGenerator.generateDietaryOptions cuisines ->
      EnhancedConciergeAgent.hasDietary r t
      = DietaryRestrictionsHandler.optionAvailable r t).
Proof.
  unfold EnhancedConciergeAgent.hasDietary, JS.some,
    DietaryRestrictionsHandler.optionAvailable.
  split; [|split].
  - destruct (find _ (dietaryOptions r)) as [opt|] eqn:Hfind;
      [|discriminate].
    intro Hav. apply find_some in Hfind as [Hin Ht].
    apply existsb_exists. exists opt. now rewrite Ht, Hav.
  - apply find_unique_type.
  - intros cuisines Hgen. apply find_unique_type.
    rewrite Hgen, generateDietaryOptions_types.
    exact restrictionTypes_NoDup.
Qed.

(** X13: a generated restaurant never offers kosher, keto, paleo or
    low-carb, whatever its cuisines; so every analysis of a generated
    restaurant for a request that includes kosher has
    [compatible = false]. *)
Theorem generated_never_offers
        (cuisines : list string) (r : Restaurant)
        (restrictions : list DietaryRestrictionType) (allergies : list string) :
  dietaryOptions r = RestaurantDataGenerator.generateDietaryOptions cuisines ->
  (forall t, In t ["kosher"; "keto"; "paleo"; "low-carb"] ->
             DietaryRestrictionsHandler.optionAvailable r t = false /\
             EnhancedConciergeAgent.hasDietary r t = false) /\
  (In "kosher" restrictions ->
   DietaryRestrictionsHandler.compatible
     (DietaryRestrictionsHandler.analyzeRestaurantCompatibility
        r restrictions allergies) = false).
Proof.
  intro Hgen.
  assert (Hoff : forall t, In t ["kosher"; "keto"; "paleo"; "low-carb"] ->
                           DietaryRestrictionsHandler.optionAvailable r t
                           = false).
  { intros t Ht.
    unfold DietaryRestrictionsHandler.optionAvailable. rewrite Hgen.
    unfold RestaurantDataGenerator.generateDietaryOptions.
    simpl in Ht.
    destruct Ht as [<-|[<-|[<-|[<-|[]]]]]; repeat case_if; reflexivity. }
  split.
  - intros t Ht. split; [now apply Hoff|].
    unfold EnhancedConciergeAgent.hasDietary, JS.some.
    rewrite find_unique_type.
    + now apply Hoff.
    + rewrite Hgen, generateDietaryOptions_types.
      exact restrictionTypes_NoDup.
  - intro Hin.
    pose proof (analyze_verdict r restrictions allergies) as Hv.
    unfold Spec.verdict in Hv. injection Hv as Hc _ _. rewrite Hc.
    apply not_true_is_false. intro Hall. rewrite forallb_forall in Hall.
    specialize (Hall "kosher" Hin).
    rewrite (Hoff "kosher") in Hall by (simpl; tauto).
    discriminate.
Qed.

(** ** The cache *)

Section CacheFacts.
Import EnhancedConciergeAgent.

Lemma cacheSet_In key data cache k d :
  In (k, d) (cacheSet key data cache) ->
  (k = key /\ d = data) \/ In (k, d) cache.
Proof.
  induction cache as [|[k0 d0] cache IH]; simpl.
  - intros [[= <- <-]|[]]. now left.
  - destruct (String.eqb_spec k0 key) as [->|Hne]; simpl.
    + intros [[= <- <-]|Hin]; [now left|right; now right].
    + intros [Heq|Hin]; [right; now left|].
      destruct (IH Hin) as [H|H]; [now left|right; now right].
Qed.

Lemma cacheSet_keys key data cache :
  map fst (cacheSet key data cache)
  = if existsb (String.eqb key) (map fst cache) then map fst cache
    else (map fst cache ++ [key])%list.
Proof.
  induction cache as [|[k0 d0] cache IH]; [reflexivity|].
  simpl. rewrite (String.eqb_sym key k0).
  destruct (String.eqb k0 key); simpl; [reflexivity|].
  rewrite IH. destruct (existsb _ (map fst cache)); reflexivity.
Qed.

Lemma cacheSet_NoDup key data cache :
  NoDup (map fst cache) -> NoDup (map fst (cacheSet key data cache)).
Proof.
  intro Hnd. rewrite cacheSet_keys.
  destruct (existsb (String.eqb key) (map fst cache)) eqn:Hex; [exact Hnd|].
  apply NoDup_app; [exact Hnd|repeat constructor; intros []|].
  intros k Hk [Heq|[]]. subst k.
  assert (existsb (String.eqb key) (map fst cache) = true); [|congruence].
  apply existsb_exists. exists key. split; [exact Hk|apply String.eqb_refl].
Qed.

Lemma cacheGet_set_same key data cache :
  cacheGet key (cacheSet key data cache) = Some data.
Proof.
  induction cache as [|[k0 d0] cache IH]; simpl.
  - now rewrite String.eqb_refl.
  - destruct (String.eqb k0 key) eqn:Hk; simpl; rewrite Hk;
      [reflexivity|exact IH].
Qed.

Lemma cacheGet_set_other key data cache k :
  k <> key -> cacheGet k (cacheSet key data cache) = cacheGet k cache.
Proof.
  intro Hne. induction cache as [|[k0 d0] cache IH]; simpl.
  - destruct (String.eqb_spec key k); [congruence|reflexivity].
  - destruct (String.eqb_spec k0 key) as [->|Hk0]; simpl.
    + destruct (String.eqb_spec key k); [congruence|reflexivity].
    + destruct (String.eqb k0 k); [reflexivity|exact IH].
Qed.

Lemma cacheGet_In key cache d :
  cacheGet key cache = Some d -> In (key, d) cache.
Proof.
  induction cache as [|[k0 d0] cache IH]; simpl; [discriminate|].
  destruct (String.eqb_spec k0 key) as [->|Hne].
  - intros [= ->]. now left.
  - intro H. right. now apply IH.
Qed.

Lemma cacheGet_key_present key cache :
  In key (map fst cache) -> exists d, cacheGet key cache = Some d.
Proof.
  induction cache as [|[k0 d0] cache IH]; simpl; [intros []|].
  destruct (String.eqb_spec k0 key) as [->|Hne].
  - intros _. now exists d0.
  - intros [Heq|Hin]; [contradiction|now apply IH].
Qed.

(** The key under which the loader stores a file. *)
Lemma loadCache_snoc files d :
  loadCache (files ++ [d])
  = cacheSet (JS.toLowerCase (name (restaurant d))) d (loadCache files).
Proof. unfold loadCache. now rewrite fold_left_app. Qed.
End CacheFacts.

(** X14: the cache that [loadRestaurantData] builds has one entry per
    lower-cased restaurant name: keys are pairwise distinct, every entry's
    key is the lower-cased name of its restaurant, every entry is one of
    the loaded files, and looking up the lower-cased name of a loaded file
    finds a file with that lower-cased name, the last file loaded being
    found under its own. *)
Theorem loaded_cache_invariants
        (files : list EnhancedConciergeAgent.GeneratedRestaurantData) :
  let key d :=
    JS.toLowerCase (name (EnhancedConciergeAgent.restaurant d)) in
  let cache := EnhancedConciergeAgent.loadCache files in
  NoDup (map fst cache) /\
  Spec.keyedByName cache /\
  (forall k d, In (k, d) cache -> In d files) /\
  (forall d, In d files ->
             exists d', EnhancedConciergeAgent.cacheGet (key d) cache = Some d' /\
                        key d' = key d /\ In d' files) /\
  (forall d, EnhancedConciergeAgent.cacheGet
               (key d) (EnhancedConciergeAgent.loadCache (files ++ [d]))
             = Some d).
Proof.
  intros key cache. subst cache.
  assert (Hlast : forall fs d,
             EnhancedConciergeAgent.cacheGet
               (key d) (EnhancedConciergeAgent.loadCache (fs ++ [d]))
             = Some d).
  { intros fs d. rewrite loadCache_snoc. apply cacheGet_set_same. }
  induction files as [|d0 files IH] using rev_ind.
  - split; [constructor|]. split; [intros k d []|].
    split; [intros k d []|]. split; [intros d []|].
    intro d. apply (Hlast [] d).
  - destruct IH as [Hnd [Hkey [Hsub [Hget _]]]].
    rewrite loadCache_snoc. fold (key d0).
    split; [now apply cacheSet_NoDup|].
    split; [|split; [|split]].
    + intros k d Hin. apply cacheSet_In in Hin as [[-> ->]|Hin];
        [reflexivity|now apply Hkey].
    + intros k d Hin. apply in_or_app.
      apply cacheSet_In in Hin as [[-> ->]|Hin];
        [right; now left|left; eapply Hsub; eassumption].
    + intros d Hin.
      destruct (string_dec (key d) (key d0)) as [Heq|Hne].
      * exists d0. rewrite Heq, cacheGet_set_same.
        repeat split. apply in_or_app. right. now left.
      * rewrite cacheGet_set_other by exact Hne.
        apply in_app_or in Hin as [Hin|[<-|[]]]; [|congruence].
        destruct (Hget d Hin) as [d' [Hg [Hk Hin']]].
        exists d'. repeat split; try assumption.
        apply in_or_app. now left.
    + intro d. apply Hlast.
Qed.

Section MentionFacts.
Import EnhancedConciergeAgent.

(** The key [find] returns is at the first cache position whose key passes
    the test, and [get] returns the entry at that position. *)
Lemma mentioned_first cache messageText key :
  mentionedRestaurant cache messageText = Some key ->
  exists before d after,
    cache = (before ++ (key, d) :: after)%list /\
    (forall k' d', In (k', d') before ->
                   (JS.includes messageText k'
                    || JS.includes messageText (JS.firstWord k')) = false) /\
    (JS.includes messageText key
     || JS.includes messageText (JS.firstWord key)) = true /\
    cacheGet key cache = Some d.
Proof.
  unfold mentionedRestaurant.
  induction cache as [|[k0 d0] cache IH]; [discriminate|].
  cbn [map fst find].
  destruct (JS.includes messageText k0
            || JS.includes messageText (JS.firstWord k0)) eqn:Htest.
  - intros [= <-]. exists [], d0, cache.
    split; [reflexivity|]. split; [intros k' d' []|].
    split; [exact Htest|]. simpl. now rewrite String.eqb_refl.
  - intro Hfind. destruct (IH Hfind) as (before & d & after & Hc & Hb & Ht & Hg).
    exists ((k0, d0) :: before), d, after.
    split; [now rewrite Hc|]. split; [|split; [exact Ht|]].
    + intros k' d' [[= <- <-]|Hin]; [exact Htest|now apply (Hb k' d')].
    + simpl. destruct (String.eqb_spec k0 key) as [->|_]; [congruence|exact Hg].
Qed.
End MentionFacts.

(** X15: when [handleReservationRequest] and [getDefaultResponse] look for
    the restaurant a message mentions, the key found is the first cache
    key, in insertion order, such that the key or its first word occurs in
    the message (the key itself need not occur in it).  If that key is not
    empty, the lookup [restaurantCache.get(mentionedRestaurant)!] succeeds
    and returns the entry at that position; if it is the empty string, the
    handlers take the branch of no mention.  No key is found exactly when
    no cache key and no first word of one occurs in the message. *)
Theorem mentioned_restaurant_resolves
        (cache : EnhancedConciergeAgent.Cache) (messageText : string) :
  let test k :=
    JS.includes messageText k || JS.includes messageText (JS.firstWord k) in
  EnhancedConciergeAgent.mentionedData cache messageText <> Some None /\
  (forall key,
      EnhancedConciergeAgent.mentionedRestaurant cache messageText = Some key ->
      exists before d after,
        cache = (before ++ (key, d) :: after)%list /\
        (forall k' d', In (k', d') before -> test k' = false) /\
        test key = true /\
        EnhancedConciergeAgent.cacheGet key cache = Some d /\
        EnhancedConciergeAgent.mentionedData cache messageText
        = if String.eqb key "" then None else Some (Some d)) /\
  (EnhancedConciergeAgent.mentionedRestaurant cache messageText = None <->
   forall k d, In (k, d) cache -> test k = false) /\
  (EnhancedConciergeAgent.mentionedRestaurant cache messageText = None ->
   EnhancedConciergeAgent.mentionedData cache messageText = None).
Proof.
  intro test.
  assert (Hres : forall key,
             EnhancedConciergeAgent.mentionedRestaurant cache messageText
             = Some key ->
             exists before d after,
               cache = (before ++ (key, d) :: after)%list /\
               (forall k' d', In (k', d') before -> test k' = false) /\
               test key = true /\
               EnhancedConciergeAgent.cacheGet key cache = Some d /\
               EnhancedConciergeAgent.mentionedData cache messageText
               = if String.eqb key "" then None else Some (Some d)).
  { intros key Hfind.
    destruct (mentioned_first cache messageText key Hfind)
      as (before & d & after & Hc & Hb & Ht & Hg).
    exists before, d, after. repeat split; try assumption.
    unfold EnhancedConciergeAgent.mentionedData. rewrite Hfind, Hg.
    simpl. destruct (String.eqb key ""); reflexivity. }
  split; [|split; [exact Hres|split]].
  - destruct (EnhancedConciergeAgent.mentionedRestaurant cache messageText)
      as [key|] eqn:Hm.
    + destruct (Hres key eq_refl) as (_ & d & _ & _ & _ & _ & _ & Hd).
      rewrite Hd. destruct (String.eqb key ""); discriminate.
    + unfold EnhancedConciergeAgent.mentionedData. rewrite Hm. discriminate.
  - unfold EnhancedConciergeAgent.mentionedRestaurant. split.
    + intros Hnone k d Hin.
      apply (find_none _ _ Hnone k). apply in_map_iff. now exists (k, d).
    + intro Hall.
      destruct (find _ (map fst cache)) as [k|] eqn:Hfind; [|reflexivity].
      apply find_some in Hfind as [Hin Hhit].
      apply in_map_iff in Hin as [[k' d] [Hk Hin]]. simpl in Hk. subst k'.
      unfold test in Hall. rewrite (Hall k d Hin) in Hhit. discriminate.
  - intro Hnone. unfold EnhancedConciergeAgent.mentionedData.
    now rewrite Hnone.
Qed.

(** ** More on the search *)

Section MoreSearchFacts.
Import EnhancedConciergeAgent.

Lemma amenityFilter_ok filters d st :
  fst (amenityFilter filters d st) = true ->
  forall a fs, f_amenity filters = Some a -> a <> "" ->
               specialFeatures d = Some fs -> hasAmenity fs a = true.
Proof.
  unfold amenityFilter. intros H a fs Ha Hne Hfs.
  rewrite Ha, Hfs in H. apply truthyStr_Some in Hne. rewrite Hne in H.
  destruct (hasAmenity fs a); [reflexivity|discriminate].
Qed.

Lemma filterStage_amenity filters d st :
  fst (filterStage filters d st) = true ->
  forall a fs, f_amenity filters = Some a -> a <> "" ->
               specialFeatures d = Some fs -> hasAmenity fs a = true.
Proof.
  unfold filterStage. destruct (fst st) eqn:Hst.
  - apply amenityFilter_ok.
  - rewrite Hst. discriminate.
Qed.

(** The words the extractor can return are lower-case and not empty. *)
Lemma extracted_cuisine messageText c :
  f_cuisine (extractSearchFilters messageText) = Some c ->
  c <> "" /\ JS.toLowerCase c = c.
Proof.
  unfold extractSearchFilters. cbn [f_cuisine]. unfold firstIncluded.
  intro H. apply find_some in H as [Hin _]. simpl in Hin.
  repeat (destruct Hin as [<-|Hin]; [split; [discriminate|reflexivity]|]).
  destruct Hin.
Qed.

Lemma extracted_dietary messageText t :
  f_dietary (extractSearchFilters messageText) = Some t -> t <> "".
Proof.
  unfold extractSearchFilters. cbn [f_dietary]. unfold firstIncluded.
  intro H. apply find_some in H as [Hin _]. simpl in Hin.
  repeat (destruct Hin as [<-|Hin]; [discriminate|]). destruct Hin.
Qed.

Lemma extracted_price messageText p :
  f_priceLevel (extractSearchFilters messageText) = Some p -> p <> 0.
Proof.
  unfold extractSearchFilters. cbn [f_priceLevel].
  repeat case_if; intros [= <-]; discriminate.
Qed.

Lemma extracted_amenity messageText a :
  f_amenity (extractSearchFilters messageText) = Some a -> a <> "".
Proof.
  unfold extractSearchFilters. cbn [f_amenity].
  repeat case_if; intros [= <-]; discriminate.
Qed.

Lemma keywordStage_upper ql k d : snd (keywordStage ql k d) <= 28.
Proof. unfold keywordStage. repeat case_if; simpl; lia. Qed.

Lemma filterStage_upper filters d st :
  snd (filterStage filters d st) <= snd st + 8.
Proof.
  unfold filterStage, amenityFilter, dietaryFilter, priceFilter, cuisineFilter.
  repeat case_match; simpl; lia.
Qed.

Lemma entryResult_length ql filters entry :
  (length (Spec.entryResult ql filters entry) <= 1)%nat.
Proof.
  unfold Spec.entryResult, searchStep. destruct entry as [k d].
  case_if; simpl; lia.
Qed.

Lemma flat_map_length_le {X Y : Type} (f : X -> list Y) (xs : list X) :
  (forall x, (length (f x) <= 1)%nat) ->
  (length (flat_map f xs) <= length xs)%nat.
Proof.
  intro Hf. induction xs as [|x xs IH]; [simpl; lia|].
  simpl. rewrite length_app. specialize (Hf x). lia.
Qed.

Lemma includes_empty (s : string) : JS.includes s "" = true.
Proof. destruct s; reflexivity. Qed.

Lemma filterStage_noFilters d st :
  filterStage (mkFilters None None None None) d st = st.
Proof. unfold filterStage. destruct (fst st); reflexivity. Qed.

Lemma amenityFilter_no_features filters d st :
  specialFeatures d = None -> amenityFilter filters d st = st.
Proof.
  intro H. unfold amenityFilter. rewrite H.
  destruct (f_amenity filters); reflexivity.
Qed.

Lemma collectResults_no_features cache query filters a :
  (forall k d, In (k, d) cache -> specialFeatures d = None) ->
  collectResults cache query (Spec.withAmenity filters a)
  = collectResults cache query filters.
Proof.
  intro Hnone. rewrite !collectResults_flat_map.
  induction cache as [|[k d] cache IH]; [reflexivity|].
  simpl. rewrite IH by (intros k' d' Hin; apply (Hnone k' d'); now right).
  f_equal. unfold Spec.entryResult, searchStep, filterStage.
  rewrite !amenityFilter_no_features
    by (apply (Hnone k d); now left).
  reflexivity.
Qed.

Lemma loadCache_In files k d : In (k, d) (loadCache files) -> In d files.
Proof.
  induction files as [|d0 files IH] using rev_ind; [intros []|].
  rewrite loadCache_snoc. intro Hin. apply in_or_app.
  apply cacheSet_In in Hin as [[_ ->]|Hin]; [right; now left|left; auto].
Qed.
End MoreSearchFacts.

(** X16: every restaurant [handleRestaurantSearch] returns satisfies the
    filters extracted from the message as they stand: its cuisine tags
    contain the extracted cuisine; its price level is the extracted one;
    when its record carries a [dietaryOptions] array, the array has an
    available entry for the extracted dietary tag; and when it carries a
    feature list, one of its features contains the extracted amenity.  A
    record without the array, or without the list, passes that filter
    unchecked. *)
Theorem handled_search_satisfies_extracted_filters
        (cache : EnhancedConciergeAgent.Cache) (messageText : string)
        (x : EnhancedConciergeAgent.SearchResult) :
  In x (EnhancedConciergeAgent.handleRestaurantSearch cache messageText) ->
  let filters := EnhancedConciergeAgent.extractSearchFilters messageText in
  let d := EnhancedConciergeAgent.data x in
  let r := EnhancedConciergeAgent.restaurant d in
  (forall c, EnhancedConciergeAgent.f_cuisine filters = Some c ->
             In c (cuisine r)) /\
  (forall p, EnhancedConciergeAgent.f_priceLevel filters = Some p ->
             priceLevel r = p) /\
  (forall t, EnhancedConciergeAgent.f_dietary filters = Some t ->
             EnhancedConciergeAgent.dietaryOptionsPresent d = true ->
             Spec.accommodates r t) /\
  (forall a fs, EnhancedConciergeAgent.f_amenity filters = Some a ->
                EnhancedConciergeAgent.specialFeatures d = Some fs ->
                EnhancedConciergeAgent.hasAmenity fs a = true).
Proof.
  intro Hin. cbv zeta.
  unfold EnhancedConciergeAgent.handleRestaurantSearch in Hin.
  apply In_searchRestaurants in Hin as [k [_ [Hm _]]].
  pose proof (filterStage_amenity _ _ _ Hm) as Ham.
  apply filterStage_pass in Hm as [_ [_ [Hc [Hp Ht]]]].
  split; [|split; [|split]].
  - intros c Hcf. destruct (extracted_cuisine messageText c Hcf) as [Hne Hlow].
    rewrite <- Hlow. now apply Hc.
  - intros p Hpf. apply Hp; [exact Hpf|].
    exact (extracted_price messageText p Hpf).
  - intros t Htf Hpres. apply Ht; [exact Htf| |exact Hpres].
    exact (extracted_dietary messageText t Htf).
  - intros a fs Haf Hfs. apply (Ham a fs Haf); [|exact Hfs].
    exact (extracted_amenity messageText a Haf).
Qed.

(** X17: every score [searchRestaurants] returns lies between 4 and 36,
    and the result has at most one entry per cache entry. *)
Theorem search_score_and_size_bounds
        (cache : EnhancedConciergeAgent.Cache) (query : string)
        (filters : EnhancedConciergeAgent.SearchFilters) :
  (forall x,
      In x (EnhancedConciergeAgent.searchRestaurants cache query filters) ->
      4 <= EnhancedConciergeAgent.searchScore x <= 36) /\
  (length (EnhancedConciergeAgent.searchRestaurants cache query filters)
   <= length cache)%nat.
Proof.
  split.
  - intros x Hin. apply In_searchRestaurants in Hin as [k [_ [Hm Hs]]].
    pose proof (filterStage_upper
                  filters (EnhancedConciergeAgent.data x)
                  (EnhancedConciergeAgent.keywordStage
                     (JS.toLowerCase query) k (EnhancedConciergeAgent.data x)))
      as Hup.
    pose proof (keywordStage_upper (JS.toLowerCase query) k
                                   (EnhancedConciergeAgent.data x)) as Hk.
    apply filterStage_pass in Hm as [Hfst [Hle _]].
    destruct (keywordStage_cases (JS.toLowerCase query) k
                                 (EnhancedConciergeAgent.data x))
      as [[_ H4]|H0]; [lia|].
    rewrite H0 in Hfst. discriminate.
  - unfold EnhancedConciergeAgent.searchRestaurants.
    rewrite <- (Permutation_length
                  (sort_perm EnhancedConciergeAgent.compareResults _)).
    rewrite collectResults_flat_map.
    apply flat_map_length_le. intro e. apply entryResult_length.
Qed.

(** X18: the empty query matches every restaurant by name: without
    filters the search returns every cache entry, each with a score of at
    least 10. *)
Theorem empty_query_returns_all
        (cache : EnhancedConciergeAgent.Cache) :
  let results :=
    EnhancedConciergeAgent.searchRestaurants
      cache "" (EnhancedConciergeAgent.mkFilters None None None None) in
  Permutation (map EnhancedConciergeAgent.data results) (map snd cache) /\
  (forall x, In x results -> 10 <= EnhancedConciergeAgent.searchScore x).
Proof.
  intro results. subst results.
  assert (Hk : forall k d,
             fst (EnhancedConciergeAgent.keywordStage "" k d) = true /\
             10 <= snd (EnhancedConciergeAgent.keywordStage "" k d)).
  { intros k d. unfold EnhancedConciergeAgent.keywordStage.
    rewrite includes_empty. cbn [orb].
    repeat case_if; simpl; split; reflexivity || lia. }
  split.
  - unfold EnhancedConciergeAgent.searchRestaurants.
    eapply Permutation_trans;
      [apply Permutation_map, Permutation_sym, sort_perm|].
    rewrite collectResults_flat_map. simpl JS.toLowerCase.
    induction cache as [|[k d] cache IH]; [apply Permutation_refl|].
    cbn [flat_map map snd]. rewrite map_app.
    unfold Spec.entryResult at 1, EnhancedConciergeAgent.searchStep.
    rewrite filterStage_noFilters.
    destruct (Hk k d) as [Hfst _]. rewrite Hfst.
    simpl. now apply perm_skip.
  - intros x Hin. apply In_searchRestaurants in Hin as [k [_ [_ Hs]]].
    rewrite filterStage_noFilters in Hs. simpl JS.toLowerCase in Hs.
    rewrite Hs. apply Hk.
Qed.

(** X19: what [generateMockData] returns carries neither popular dishes
    nor special features.  In a cache loaded from such data a requested
    amenity changes nothing, and no score exceeds 23 (name 10, cuisine 8,
    dietary bonus 5). *)
Theorem generated_cache_ignores_amenity
        (inputs : list (string * string * Q)) (query : string)
        (filters : EnhancedConciergeAgent.SearchFilters) (a : string) :
  let cache :=
    EnhancedConciergeAgent.loadCache
      (map (fun i => MockData.generateMockData (fst (fst i)) (snd (fst i))
                                               (snd i))
           inputs) in
  EnhancedConciergeAgent.searchRestaurants
    cache query (Spec.withAmenity filters a)
  = EnhancedConciergeAgent.searchRestaurants cache query filters /\
  (forall x,
      In x (EnhancedConciergeAgent.searchRestaurants cache query filters) ->
      EnhancedConciergeAgent.searchScore x <= 23).
Proof.
  intro cache.
  assert (Hgen : forall k d,
             In (k, d) cache ->
             EnhancedConciergeAgent.popularDishes d = None /\
             EnhancedConciergeAgent.specialFeatures d = None).
  { intros k d Hin. subst cache. apply loadCache_In in Hin.
    apply in_map_iff in Hin as [i [<- _]]. split; reflexivity. }
  split.
  - unfold EnhancedConciergeAgent.searchRestaurants.
    rewrite collectResults_no_features; [reflexivity|].
    intros k d Hin. now apply (Hgen k d).
  - intros x Hin. apply In_searchRestaurants in Hin as [k [Hin [_ Hs]]].
    destruct (Hgen k _ Hin) as [Hd Hf]. rewrite Hs.
    unfold EnhancedConciergeAgent.filterStage,
      EnhancedConciergeAgent.amenityFilter,
      EnhancedConciergeAgent.dietaryFilter,
      EnhancedConciergeAgent.priceFilter,
      EnhancedConciergeAgent.cuisineFilter,
      EnhancedConciergeAgent.keywordStage.
    rewrite Hd, Hf. cbn [EnhancedConciergeAgent.orEmpty JS.some existsb].
    repeat case_match; simpl; lia.
Qed.

(** X20: lower-casing a message first, as the webhook and the chat
    endpoint do before they call [processMessage], changes neither the
    extracted filters nor the search results. *)
Theorem search_ignores_case
        (cache : EnhancedConciergeAgent.Cache) (messageText : string)
        (filters : EnhancedConciergeAgent.SearchFilters) :
  EnhancedConciergeAgent.extractSearchFilters (JS.toLowerCase messageText)
  = EnhancedConciergeAgent.extractSearchFilters messageText /\
  EnhancedConciergeAgent.searchRestaurants
    cache (JS.toLowerCase messageText) filters
  = EnhancedConciergeAgent.searchRestaurants cache messageText filters /\
  EnhancedConciergeAgent.handleRestaurantSearch
    cache (JS.toLowerCase messageText)
  = EnhancedConciergeAgent.handleRestaurantSearch cache messageText.
Proof.
  assert (H1 : EnhancedConciergeAgent.extractSearchFilters
                 (JS.toLowerCase messageText)
               = EnhancedConciergeAgent.extractSearchFilters messageText).
  { unfold EnhancedConciergeAgent.extractSearchFilters.
    now rewrite toLowerCase_idempotent. }
  assert (H2 : forall f,
             EnhancedConciergeAgent.searchRestaurants
               cache (JS.toLowerCase messageText) f
             = EnhancedConciergeAgent.searchRestaurants cache messageText f).
  { intro f. unfold EnhancedConciergeAgent.searchRestaurants,
      EnhancedConciergeAgent.collectResults.
    now rewrite toLowerCase_idempotent. }
  split; [exact H1|]. split; [apply H2|].
  unfold EnhancedConciergeAgent.handleRestaurantSearch.
  now rewrite H1, H2.
Qed.

(** ** The earlier search against the enhanced one *)

Section BasicFacts.
Import EnhancedConciergeAgent.

Lemma basic_fold ql filters cache : forall acc,
  fold_left (BasicConciergeAgent.searchStep ql filters) cache acc
  = (acc
       ++ flat_map
            (fun e =>
               if BasicConciergeAgent.applyFilters
                    filters (restaurant (snd e))
                    (BasicConciergeAgent.keywordMatch ql (fst e) (snd e))
               then [snd e] else [])
            cache)%list.
Proof.
  induction cache as [|[k d] cache IH]; intro acc; simpl.
  - now rewrite app_nil_r.
  - destruct (BasicConciergeAgent.applyFilters _ _ _); rewrite IH.
    + now rewrite <- app_assoc.
    + reflexivity.
Qed.

Lemma In_basic_search cache query filters d :
  In d (BasicConciergeAgent.searchRestaurants cache query filters) <->
  exists k,
    In (k, d) cache /\
    BasicConciergeAgent.applyFilters
      filters (restaurant d)
      (BasicConciergeAgent.keywordMatch (JS.toLowerCase query) k d) = true.
Proof.
  unfold BasicConciergeAgent.searchRestaurants.
  rewrite sort_In, basic_fold, app_nil_l, in_flat_map. split.
  - intros [[k d'] [Hin Hd]]. simpl in Hd.
    destruct (BasicConciergeAgent.applyFilters _ _ _) eqn:Hf; [|destruct Hd].
    destruct Hd as [<-|[]]. now exists k.
  - intros [k [Hin Hf]]. exists (k, d). split; [exact Hin|].
    simpl. rewrite Hf. now left.
Qed.

(** The earlier keyword test is the enhanced one without the test on the
    special features. *)
Lemma keywordMatch_keywordStage ql k d :
  fst (keywordStage ql k d)
  = BasicConciergeAgent.keywordMatch ql k d
    || JS.some (fun feature => JS.includes ql (JS.toLowerCase feature))
               (orEmpty (specialFeatures d)).
Proof.
  unfold keywordStage, BasicConciergeAgent.keywordMatch.
  repeat case_if; reflexivity.
Qed.

Lemma cuisine_test (c : option string) (r : Restaurant) :
  (forall c', c = Some c' -> c' <> "" -> In (JS.toLowerCase c') (cuisine r))
  <->
  match c with
  | Some c' => JS.truthyStr (Some c')
               && negb (JS.arrayIncludes (cuisine r) (JS.toLowerCase c'))
  | None => false
  end = false.
Proof.
  destruct c as [c'|]; [|split; [reflexivity|discriminate]].
  split.
  - intro H. destruct (JS.truthyStr (Some c')) eqn:Ht; [|reflexivity].
    apply truthyStr_Some in Ht.
    apply (H c' eq_refl), arrayIncludes_In in Ht. now rewrite Ht.
  - intros H c'' [= <-] Hne. apply truthyStr_Some in Hne.
    rewrite Hne in H. cbn [andb] in H. apply negb_false_iff in H.
    now apply arrayIncludes_In.
Qed.

Lemma price_test (p : option Z) (r : Restaurant) :
  (forall p', p = Some p' -> p' <> 0 -> priceLevel r = p')
  <->
  match p with
  | Some p' => JS.truthyNum (Some p') && negb (priceLevel r =? p')
  | None => false
  end = false.
Proof.
  destruct p as [p'|]; [|split; [reflexivity|discriminate]].
  split.
  - intro H. destruct (JS.truthyNum (Some p')) eqn:Ht; [|reflexivity].
    apply truthyNum_Some in Ht. rewrite (H p' eq_refl Ht), Z.eqb_refl.
    reflexivity.
  - intros H p'' [= <-] Hne. apply truthyNum_Some in Hne.
    rewrite Hne in H. cbn [andb] in H. apply negb_false_iff in H.
    now apply Z.eqb_eq.
Qed.

(** The earlier filters pass exactly under the cuisine and price tests. *)
Lemma applyFilters_true c p r :
  BasicConciergeAgent.applyFilters
    (BasicConciergeAgent.mkBasicFilters c p) r true = true <->
  (forall c', c = Some c' -> c' <> "" -> In (JS.toLowerCase c') (cuisine r)) /\
  (forall p', p = Some p' -> p' <> 0 -> priceLevel r = p').
Proof.
  rewrite cuisine_test, price_test.
  unfold BasicConciergeAgent.applyFilters.
  cbn [BasicConciergeAgent.b_cuisine BasicConciergeAgent.b_priceLevel].
  destruct c as [c'|], p as [p'|];
    repeat match goal with
           | |- context [JS.truthyStr ?o && ?b] =>
               destruct (JS.truthyStr o && b)
           | |- context [JS.truthyNum ?o && ?b] =>
               destruct (JS.truthyNum o && b)
           end;
    split; intro H; try reflexivity; try discriminate H;
      try (split; reflexivity); destruct H; discriminate.
Qed.

Lemma applyFilters_false filters r :
  BasicConciergeAgent.applyFilters filters r false = false.
Proof. reflexivity. Qed.
End BasicFacts.

(** X21: the enhanced search with the dietary and amenity filters unset
    returns every restaurant the earlier search (src/unnamed/part_000)
    returns for the same query, cuisine and price level; and a restaurant
    it returns beyond those is one whose special features matched the
    query, the one keyword test the earlier search does not have. *)
Theorem enhanced_search_extends_basic
        (cache : EnhancedConciergeAgent.Cache) (query : string)
        (c : option string) (p : option Z) :
  let basic :=
    BasicConciergeAgent.searchRestaurants
      cache query (BasicConciergeAgent.mkBasicFilters c p) in
  let enhanced :=
    EnhancedConciergeAgent.searchRestaurants
      cache query (EnhancedConciergeAgent.mkFilters c p None None) in
  (forall d, In d basic ->
             exists x, In x enhanced /\ EnhancedConciergeAgent.data x = d) /\
  (forall x, In x enhanced ->
             In (EnhancedConciergeAgent.data x) basic \/
             JS.some (fun feature =>
                        JS.includes (JS.toLowerCase query)
                                    (JS.toLowerCase feature))
                     (EnhancedConciergeAgent.orEmpty
                        (EnhancedConciergeAgent.specialFeatures
                           (EnhancedConciergeAgent.data x))) = true).
Proof.
  intros basic enhanced. subst basic enhanced. split.
  - intros d Hin. apply In_basic_search in Hin as [k [Hin Hf]].
    destruct (BasicConciergeAgent.keywordMatch (JS.toLowerCase query) k d)
      eqn:Hk; [|rewrite applyFilters_false in Hf; discriminate].
    apply applyFilters_true in Hf as [Hc Hp].
    assert (Hst : fst (EnhancedConciergeAgent.keywordStage
                         (JS.toLowerCase query) k d) = true)
      by (rewrite keywordMatch_keywordStage, Hk; reflexivity).
    destruct (filterStage_accept
                (EnhancedConciergeAgent.mkFilters c p None None) d _ Hst)
      as [Hm _]; try (intros; discriminate); try assumption.
    exists (EnhancedConciergeAgent.mkResult
              d (snd (EnhancedConciergeAgent.filterStage
                        (EnhancedConciergeAgent.mkFilters c p None None) d
                        (EnhancedConciergeAgent.keywordStage
                           (JS.toLowerCase query) k d)))).
    split; [|reflexivity].
    apply In_searchRestaurants. exists k. simpl. auto.
  - intros x Hin. apply In_searchRestaurants in Hin as [k [Hin [Hm _]]].
    apply filterStage_pass in Hm as [Hst [_ [Hc [Hp _]]]].
    rewrite keywordMatch_keywordStage in Hst.
    apply orb_true_iff in Hst as [Hk|Hfeat]; [left|now right].
    apply In_basic_search. exists k. split; [exact Hin|].
    rewrite Hk. apply applyFilters_true. split; assumption.
Qed.

(** ** Further theorems at concrete inputs *)

Section MoreInstances.
Import EnhancedConciergeAgent.

(** A generated Japanese restaurant asked for halal: six options are
    available, halal is not; the analysis is incompatible and scores 60,
    the default threshold of [filterRestaurantsByDietary]. *)
Lemma incompatible_scores_at_most_60_witness :
  DietaryRestrictionsHandler.compatible
    (DietaryRestrictionsHandler.analyzeRestaurantCompatibility
       (Spec.generatedRestaurant "Tokyo Sushi" "1 Main St" 4.0%Q)
       ["halal"] []) = false /\
  DietaryRestrictionsHandler.score
    (DietaryRestrictionsHandler.analyzeRestaurantCompatibility
       (Spec.generatedRestaurant "Tokyo Sushi" "1 Main St" 4.0%Q)
       ["halal"] []) <= 60 /\
  map (fun ra => name (fst ra))
      (DietaryRestrictionsHandler.filterRestaurantsByDietary
         [Spec.generatedRestaurant "Tokyo Sushi" "1 Main St" 4.0%Q]
         ["halal"] []
         DietaryRestrictionsHandler.defaultMinCompatibilityScore)
  = ["Tokyo Sushi"].
Proof.
  assert (Hc : DietaryRestrictionsHandler.compatible
                 (DietaryRestrictionsHandler.analyzeRestaurantCompatibility
                    (Spec.generatedRestaurant "Tokyo Sushi" "1 Main St" 4.0%Q)
                    ["halal"] []) = false)
    by (vm_compute; reflexivity).
  split; [exact Hc|]. split.
  - exact (incompatible_scores_at_most_60
             (Spec.generatedRestaurant "Tokyo Sushi" "1 Main St" 4.0%Q)
             ["halal"] [] Hc).
  - vm_compute. reflexivity.
Defined.

(** The two thresholds on the sample restaurants. *)
Lemma dietary_filter_threshold_edges_witness :
  Permutation
    (map fst (DietaryRestrictionsHandler.filterRestaurantsByDietary
                [restaurant Samples.mario; Samples.dragon] ["vegan"] ["nuts"] 0))
    [restaurant Samples.mario; Samples.dragon] /\
  DietaryRestrictionsHandler.filterRestaurantsByDietary
    [restaurant Samples.mario; Samples.dragon] ["vegan"] ["nuts"] 101 = [].
Proof.
  split.
  - refine (proj1 (dietary_filter_threshold_edges
                     [restaurant Samples.mario; Samples.dragon]
                     ["vegan"] ["nuts"] 0) _).
    lia.
  - refine (proj2 (dietary_filter_threshold_edges
                     [restaurant Samples.mario; Samples.dragon]
                     ["vegan"] ["nuts"] 101) _).
    lia.
Defined.

(** The record generated for Dragon Palace, asked for kosher. *)
Lemma generated_never_offers_witness :
  (forall t, In t ["kosher"; "keto"; "paleo"; "low-carb"] ->
             DietaryRestrictionsHandler.optionAvailable Samples.dragon t
             = false /\
             hasDietary Samples.dragon t = false) /\
  (In "kosher" ["vegetarian"; "kosher"] ->
   DietaryRestrictionsHandler.compatible
     (DietaryRestrictionsHandler.analyzeRestaurantCompatibility
        Samples.dragon ["vegetarian"; "kosher"] []) = false).
Proof.
  refine (generated_never_offers
            ["chinese"] Samples.dragon ["vegetarian"; "kosher"] [] _).
  vm_compute. reflexivity.
Defined.

(** The scenario message on the sample cache. *)
Lemma handled_search_satisfies_extracted_filters_witness :
  In (mkResult Samples.mario 13)
     (handleRestaurantSearch Samples.cache Samples.text) /\
  In "italian" (cuisine (restaurant Samples.mario)) /\
  priceLevel (restaurant Samples.mario) = 1 /\
  Spec.accommodates (restaurant Samples.mario) "vegetarian".
Proof.
  assert (Hin : In (mkResult Samples.mario 13)
                   (handleRestaurantSearch Samples.cache Samples.text))
    by (vm_compute; left; reflexivity).
  split; [exact Hin|].
  destruct (handled_search_satisfies_extracted_filters
              Samples.cache Samples.text (mkResult Samples.mario 13) Hin)
    as [Hc [Hp [Hd _]]].
  split; [|split].
  - exact (Hc "italian" eq_refl).
  - exact (Hp 1 eq_refl).
  - exact (Hd "vegetarian" eq_refl eq_refl).
Defined.
End MoreInstances.
